(** * etherscan-downloader: fetching and normalising verified contract sources

    A shallow embedding of [getRawContractCode] and [parseContractCode]
    (main.go) together with the properties of the response-shape
    normalisation.

    Conventions of the embedding:
    - a Go [string] is a byte sequence, hence a [string] of 8-bit [ascii];
    - a Go [int] is a [Z] (the only arithmetic is [len(s) - 1], far from
      any wrap-around);
    - a pointer [*T] is an [option T], [None] being [nil];
    - a [map[string]V] is a [gmap string V] (a nil map reads as [∅]);
    - a call that returns [(v, err)] yields the pair [(v, err)] with
      [err : option error], [None] being a nil error;
    - a run-time panic is an explicit result of the execution;
    - [encoding/json] and [net/http] are libraries: the program is written
      over the decoders and the transport it calls, and a reference model of
      the decoders is given further down to run the program on concrete
      bodies. *)

From Stdlib Require Import ZArith Ascii String List Bool Lia.
From stdpp Require Import base option list strings gmap.

Local Open Scope Z_scope.

(** ** Go run-time *)

Module Go.

Inductive panic : Type :=
| NilPointerDereference
| IndexOutOfRange
| SliceBoundsOutOfRange.

(** How a call ends: normally with a value, or with a run-time panic. *)
Inductive run (A : Type) : Type :=
| Done (a : A)
| Panicked (p : panic).

Arguments Done {A} a.
Arguments Panicked {A} p.

(** An execution also records, in call order, the byte strings that were
    handed to [json.Unmarshal]. *)
Definition Exec (A : Type) : Type := (list string * run A)%type.

Definition ret {A} (a : A) : Exec A := ([], Done a).

Definition throw {A} (p : panic) : Exec A := ([], Panicked p).

Definition bind {A B} (m : Exec A) (k : A → Exec B) : Exec B :=
  match m with
  | (calls, Done a) => let '(calls', r) := k a in (calls ++ calls', r)
  | (calls, Panicked p) => (calls, Panicked p)
  end.

Definition calls {A} (m : Exec A) : list string := fst m.
Definition result {A} (m : Exec A) : run A := snd m.

(** [len(s)] of a string: its number of bytes. *)
Definition len (s : string) : Z := Z.of_nat (String.length s).

(** [len(l)] of a slice. *)
Definition len_slice {A} (l : list A) : Z := Z.of_nat (List.length l).

(** [*p] (also the implicit dereference of [p.Field]). *)
Definition deref {A} (p : option A) : Exec A :=
  match p with
  | Some a => ret a
  | None => throw NilPointerDereference
  end.

(** [l[i]] on a slice. *)
Definition index {A} (l : list A) (i : Z) : Exec A :=
  if (0 <=? i) && (i <? len_slice l) then
    match l !! Z.to_nat i with
    | Some a => ret a
    | None => throw IndexOutOfRange
    end
  else throw IndexOutOfRange.

(** [s[lo:hi]] on a string: the bytes [lo .. hi-1]; it panics unless
    [0 <= lo <= hi <= len(s)]. *)
Definition slice (s : string) (lo hi : Z) : Exec string :=
  if (0 <=? lo) && (lo <=? hi) && (hi <=? len s) then
    ret (substring (Z.to_nat lo) (Z.to_nat (hi - lo)) s)
  else throw SliceBoundsOutOfRange.

(** [fmt.Sprintf] for formats whose only verb is [%s], applied to string
    operands. A verb without operand prints [%!s(MISSING)]. (No call of
    the program passes more operands than verbs.) *)
Fixpoint Sprintf (format : string) (args : list string) : string :=
  match format with
  | String "%" (String "s" rest) =>
      match args with
      | a :: args' => a +:+ Sprintf rest args'
      | [] => "%!s(MISSING)" +:+ Sprintf rest []
      end
  | String c rest => String c (Sprintf rest args)
  | EmptyString => EmptyString
  end.

(** [strings.Contains(s, sub)], used to speak about error texts. *)
Fixpoint Contains (s sub : string) : bool :=
  String.prefix sub s ||
  match s with
  | String _ s' => Contains s' sub
  | EmptyString => false
  end.

End Go.

Export Go.

Declare Scope go_scope.
Delimit Scope go_scope with go.
Notation "'let*' x ':=' m 'in' k" := (bind m (fun x => k))
  (at level 10, x name, m at level 100, k at level 200) : go_scope.
Local Open Scope go_scope.


(** ** Data model (the struct declarations of main.go) *)

(** [error]: only its text is observable. *)
Definition error : Type := string.

(** A JSON text as a tree. It is also what an [interface{}] holds after
    decoding ([Libraries]): the value is carried through uninterpreted, a
    number keeps its literal. *)
#[warnings="-register-all"]
Inductive json : Type :=
| JNull
| JBool (b : bool)
| JNumber (literal : string)
| JString (s : string)
| JArray (elems : list json)
| JObject (members : list (string * json)).

Record RawCode : Type := mkRawCode {
  SourceCode : string;
  Abi : string;
  ContractName : string;
  CompilerVersion : string;
  OptimizationUsed : string;
  Runs : string;
  ConstructorArguments : string;
  EVMVersion : string;
  Library : string;
  LicenseType : string;
  Proxy : string;
  Implementation : string;
  SwarmSource : string;
  IsOneSource : bool
}.

(** [RawCode{SourceCode: s, IsOneSource: b}]: the other fields are at
    their zero value. *)
Definition RawCode_lit (s : string) (b : bool) : RawCode :=
  mkRawCode s "" "" "" "" "" "" "" "" "" "" "" "" b.

Record Response : Type := mkResponse {
  Status : string;
  Message : string;
  Codes : list (option RawCode)
}.

Record Contract : Type := mkContract { Content : string }.

(** [type Sources map[string]*Contract]. *)
Abbreviation Sources := (gmap string (option Contract)).

(** [Optimizer.Runs] is [OptimizerRuns] here, [Runs] being the field of
    [RawCode]. *)
Record Optimizer : Type := mkOptimizer { Enabled : bool; OptimizerRuns : Z }.

(** [type OutputSelection map[string]map[string][]string]. *)
Abbreviation OutputSelection := (gmap string (gmap string (list string))).

(** [type Settings struct]; [Optimizer] and [OutputSelection] are also the
    names of their types, hence the prefix on these two fields.
    [Libraries interface{}]: [None] is the nil interface. *)
Record Settings : Type := mkSettings {
  SettingsOptimizer : option Optimizer;
  SettingsOutputSelection : OutputSelection;
  Libraries : option json
}.

(** [type SourceCode struct]; its name is taken by the field
    [RawCode.SourceCode], hence [SourceCodeDoc], and its fields [Sources]
    and [Settings] bear the names of their types, hence the prefix. *)
Record SourceCodeDoc : Type := mkSourceCode {
  Language : string;
  SourceCodeSources : Sources;
  SourceCodeSettings : Settings
}.

(** [SourceCode{Sources: Sources{"main.sol": &Contract{Content: text}}}] *)
Definition mainSol (text : string) : SourceCodeDoc :=
  mkSourceCode "" {[ "main.sol" := Some (mkContract text) ]}
               (mkSettings None ∅ None).

(** ** The program *)

(** What the single GET of [getRawContractCode] can yield: a failure of
    [http.DefaultClient.Get], a failure of [io.ReadAll], or the bytes of
    the response body. *)
Inductive http_result : Type :=
| GetFailed (err : error)
| ReadAllFailed (err : error)
| Body (bs : string).

Section Program.

(** The outside world and the library calls of the two functions:
    - [http_Get url]: the GET and the read of its body;
    - [json_Decode_Response bs]:
      [json.NewDecoder(bytes.NewBuffer(bs)).Decode(&Response{})],
      [Some r] when it returns a nil error and has filled [r];
    - [json_Unmarshal data]: [json.Unmarshal(data, &SourceCode{})],
      [Some d] when it returns a nil error and has filled [d]. *)
Variable http_Get : string → http_result.
Variable json_Decode_Response : string → option Response.
Variable json_Unmarshal : string → option SourceCodeDoc.

Definition call_Unmarshal (data : string) : Exec (option SourceCodeDoc) :=
  ([data], Done (json_Unmarshal data)).

Definition getContractURL (endpoint address apikey : string) : string :=
  Sprintf "%s/api?module=contract&action=getsourcecode&address=%s&apikey=%s"
          [endpoint; address; apikey].

Definition getRawContractCode (endpoint address apiKey : string)
  : list (option RawCode) * option error :=
  let url := getContractURL endpoint address apiKey in
  match http_Get url with
  | GetFailed err => ([], Some err)
  | ReadAllFailed err => ([], Some err)
  | Body bs =>
      match json_Decode_Response bs with
      | None => ([Some (RawCode_lit bs true)], None)
      | Some contractCodeResponse =>
          if negb (String.eqb (Status contractCodeResponse) "1") then
            ([], Some (Sprintf "bad status: %s, message: %s"
                               [Status contractCodeResponse;
                                Status contractCodeResponse]))
          else (Codes contractCodeResponse, None)
      end
  end.

(** The [for _, rawCode := range rawCodes] loop: [rest] is what is left
    to visit, [sourceCodes] what has been appended so far. Every pointer
    appended is a fresh [&SourceCode{}], hence the list of structs. *)
Fixpoint parseContractCode_loop (rawCodes rest : list (option RawCode))
    (sourceCodes : list SourceCodeDoc)
  : Exec (list SourceCodeDoc * option error) :=
  match rest with
  | [] => ret (sourceCodes, None)
  | p :: rest' =>
      let* rawCode := deref p in
      let* data := slice (SourceCode rawCode) 1 (len (SourceCode rawCode) - 1) in
      let* sourceCode := call_Unmarshal data in
      match sourceCode with
      | None =>
          let* p0 := index rawCodes 0 in
          let* first := deref p0 in
          ret ([mainSol (SourceCode first)], None)
      | Some sourceCode =>
          parseContractCode_loop rawCodes rest' (sourceCodes ++ [sourceCode])
      end
  end.

Definition parseContractCode (rawCodes : list (option RawCode))
  : Exec (list SourceCodeDoc * option error) :=
  let* oneSource :=
    (if len_slice rawCodes =? 1 then
       let* p0 := index rawCodes 0 in
       let* first := deref p0 in
       ret (IsOneSource first)
     else ret false) in
  if (oneSource : bool) then
    let* p0 := index rawCodes 0 in
    let* first := deref p0 in
    ret ([mainSol (SourceCode first)], None)
  else parseContractCode_loop rawCodes rawCodes [].

End Program.

(** ** The rest of main.go: configuration, output files, [run], [main] *)

(** [type chain uint]: a 64-bit unsigned number, never computed with. *)
Definition ethereum : Z := 1.
Definition polygon : Z := 137.

Record ConfigContract : Type := mkConfigContract {
  Chain : Z;
  Address : string
}.

Record Config : Type := mkConfig {
  Target : string;
  ContractDir : string;
  Contracts : gmap string ConfigContract
}.

Record blockExplorer : Type := mkBlockExplorer {
  endpoint : string;
  apiKey : string
}.

(** What [run] does to the file system, in the order of the calls:
    [os.MkdirAll] and [os.Create] with the error they returned, the
    [Write] and the [Close] of a created file (a file is named by the
    path it was created at). *)
Inductive event : Type :=
| EvMkdirAll (path : string) (err : option error)
| EvCreate (name : string) (err : option error)
| EvWrite (name : string) (b : string)
| EvClose (name : string).

(** The outside world of the program: the environment variables, the file
    [config.json], the decoders of [encoding/json], the GET, [filepath.Join]
    and [filepath.Dir], the order in which a [range] visits a map (it may
    differ from one bundle to the next, hence the rank of the bundle), and
    whether a [MkdirAll] or a [Create] fails, which may depend on what was
    done before. *)
Record Env : Type := mkEnv {
  env_Getenv : string → string;
  env_ReadFile : string → error + string;
  env_Decode_Config : string → error + Config;
  env_Get : string → http_result;
  env_Decode_Response : string → option Response;
  env_Unmarshal : string → option SourceCodeDoc;
  env_Join : list string → string;
  env_Dir : string → string;
  env_range : nat → Sources → list (string * option Contract);
  env_MkdirAll : list event → string → option error;
  env_Create : list event → string → option error
}.

(** An execution of [run]: from the events so far and the stack of
    deferred [Close] calls to both afterwards, with a value or a panic. *)
Definition IO (A : Type) : Type :=
  list event * list string → (list event * list string) * run A.

Definition io_ret {A} (a : A) : IO A := λ st, (st, Done a).

Definition io_bind {A B} (m : IO A) (k : A → IO B) : IO B := λ st,
  match m st with
  | (st', Done a) => k a st'
  | (st', Panicked p) => (st', Panicked p)
  end.

(** A computation of the run-time (its record of decoder calls is left
    out) inside an execution of [run]. *)
Definition io_lift {A} (m : Exec A) : IO A := λ st, (st, result m).

Definition io_MkdirAll (W : Env) (path : string) : IO (option error) := λ st,
  let err := env_MkdirAll W (fst st) path in
  ((fst st ++ [EvMkdirAll path err], snd st), Done err).

Definition io_Create (W : Env) (name : string) : IO (option error) := λ st,
  let err := env_Create W (fst st) name in
  ((fst st ++ [EvCreate name err], snd st), Done err).

(** [defer f.Close()]. *)
Definition io_defer_Close (name : string) : IO unit := λ st,
  ((fst st, name :: snd st), Done tt).

(** [f.Write(b)]; what it returns is dropped by the program. *)
Definition io_Write (name : string) (b : string) : IO unit := λ st,
  ((fst st ++ [EvWrite name b], snd st), Done tt).

Notation "'do' x ← m ; k" := (io_bind m (fun x => k))
  (at level 10, x name, m at level 100, k at level 200) : go_scope.

Section Main.

Variable W : Env.

(** [var blockExploers], initialised from the environment. *)
Definition blockExploers : gmap Z blockExplorer :=
  {[ ethereum := mkBlockExplorer "https://api.etherscan.io/"
                                 (env_Getenv W "ETHERSCAN_APIKEY");
     polygon := mkBlockExplorer "https://api.polygonscan.com/"
                                (env_Getenv W "POLYGONSCAN_APIKEY") ]}.

(** The pointer to the configuration and the error. The last statement
    returns the [err] of [os.ReadFile], which is nil there. *)
Definition loadConfig : option Config * option error :=
  match env_ReadFile W "config.json" with
  | inl err => (None, Some err)
  | inr bs =>
      match env_Decode_Config W bs with
      | inl err => (None, Some err)
      | inr c => (Some c, None)
      end
  end.

Definition targetPath (rootDir dir path : string) : string :=
  env_Join W [rootDir; dir; path].

Definition targetDir (rootDir dir path : string) : string :=
  env_Dir W (targetPath rootDir dir path).

(** [for path, source := range sourceCode.Sources], over the pairs in the
    order of the visit; [Some err] is a [return err] from inside the loop. *)
Fixpoint run_range (c : Config) (sources : list (string * option Contract))
  : IO (option error) :=
  match sources with
  | [] => io_ret None
  | (path, source) :: sources' =>
      do err ← io_MkdirAll W (targetDir (ContractDir c) (Target c) path);
      match err with
      | Some err => io_ret (Some err)
      | None =>
          let f := targetPath (ContractDir c) (Target c) path in
          do err ← io_Create W f;
          match err with
          | Some err => io_ret (Some err)
          | None =>
              do _ ← io_defer_Close f;
              do contract ← io_lift (deref source);
              do _ ← io_Write f (Content contract);
              run_range c sources'
          end
      end
  end.

(** [for _, sourceCode := range sourceCodes]; [i] is the rank of the
    bundle. *)
Fixpoint run_loop (c : Config) (i : nat) (sourceCodes : list SourceCodeDoc)
  : IO (option error) :=
  match sourceCodes with
  | [] => io_ret None
  | sourceCode :: sourceCodes' =>
      do err ← run_range c (env_range W i (SourceCodeSources sourceCode));
      match err with
      | Some err => io_ret (Some err)
      | None => run_loop c (S i) sourceCodes'
      end
  end.

(** The statements of [run] from the lookup of the target to the fetch;
    indexing a map with a key it does not have gives the zero value. *)
Definition run_fetch (c : Config) : list (option RawCode) * option error :=
  let targetAddress :=
    default (mkConfigContract 0 "") (Contracts c !! Target c) in
  let explorer :=
    default (mkBlockExplorer "" "") (blockExploers !! Chain targetAddress) in
  getRawContractCode (env_Get W) (env_Decode_Response W)
    (endpoint explorer) (Address targetAddress) (apiKey explorer).

(** The body of [run], before its deferred calls. *)
Definition run_body : IO (option error) :=
  match loadConfig with
  | (_, Some err) => io_ret (Some err)
  | (p, None) =>
      do c ← io_lift (deref p);
      match run_fetch c with
      | (_, Some err) => io_ret (Some err)
      | (rawCodes, None) =>
          do r ← io_lift (parseContractCode (env_Unmarshal W) rawCodes);
          match r with
          | (_, Some err) => io_ret (Some err)
          | (sourceCodes, None) => run_loop c 0 sourceCodes
          end
      end
  end.

(** [run]: the body, then the deferred [Close] calls, last deferred first,
    also when the body panics. The result is the events so far and what
    [run] returns. *)
Definition run (history : list event) : list event * Go.run (option error) :=
  match run_body (history, []) with
  | ((history', deferred), r) => (history' ++ (EvClose <$> deferred), r)
  end.

(** How the process ends: [os.Exit(1)] after the error and a newline on the
    standard error stream, the normal end with status 0, or the crash of
    an unrecovered panic. *)
Inductive exit : Type :=
| Exited (status : Z) (stderr : string)
| Crashed (p : panic).

Definition main (history : list event) : list event * exit :=
  match run history with
  | (history', Done (Some err)) => (history', Exited 1 (err +:+ String "010" ""))
  | (history', Done None) => (history', Exited 0 "")
  | (history', Panicked p) => (history', Crashed p)
  end.

End Main.

(** ** Reference model of encoding/json

    The two decoders the program calls, as the Go library implements them:
    the scanner's grammar, the unquoting of string literals, and the
    reflection-driven filling of the target structs. It lets the program
    run on concrete response bodies. *)

Module EncodingJSON.

Definition byte (c : ascii) : N := N_of_ascii c.

Definition chr (n : N) : ascii := ascii_of_N n.

(** *** Scanner *)

Definition isSpace (c : ascii) : bool :=
  (byte c =? 32)%N || (byte c =? 9)%N || (byte c =? 13)%N || (byte c =? 10)%N.

Fixpoint skipSpace (s : string) : string :=
  match s with
  | String c s' => if isSpace c then skipSpace s' else s
  | EmptyString => s
  end.

Definition isDigit (c : ascii) : bool := (48 <=? byte c)%N && (byte c <=? 57)%N.

(** The longest prefix of digits, and what follows it. *)
Fixpoint digits (s : string) : string * string :=
  match s with
  | String c s' =>
      if isDigit c then let '(ds, r) := digits s' in (String c ds, r)
      else (EmptyString, s)
  | EmptyString => (EmptyString, EmptyString)
  end.

(** At least one digit. *)
Definition digits1 (s : string) : option (string * string) :=
  match digits s with
  | (EmptyString, _) => None
  | (ds, r) => Some (ds, r)
  end.

(** A number literal: an optional minus sign; then a zero, or a non-zero
    digit and any digits; then, optionally, a dot and one digit or more;
    then, optionally, [e] or [E], an optional sign and one digit or more.
    The result is the literal and the rest of the input. *)
Definition scanNumber (s : string) : option (string * string) :=
  let '(sign, s) :=
    match s with
    | String "-" r => ("-", r)
    | _ => ("", s)
    end in
  '(int, s) ←
    match s with
    | String "0" r => Some ("0", r)
    | _ => digits1 s
    end;
  '(frac, s) ←
    match s with
    | String "." r => '(ds, r') ← digits1 r; Some (String "." ds, r')
    | _ => Some ("", s)
    end;
  '(exp, s) ←
    match s with
    | String c r =>
        if (byte c =? 101)%N || (byte c =? 69)%N then
          let '(esign, r) :=
            match r with
            | String "+" r' => ("+", r')
            | String "-" r' => ("-", r')
            | _ => ("", r)
            end in
          '(ds, r') ← digits1 r; Some (String c (esign +:+ ds), r')
        else Some ("", s)
    | EmptyString => Some ("", s)
    end;
  Some (sign +:+ int +:+ frac +:+ exp, s).

Definition hexDigit (c : ascii) : option N :=
  let b := byte c in
  if (48 <=? b)%N && (b <=? 57)%N then Some (b - 48)%N
  else if (97 <=? b)%N && (b <=? 102)%N then Some (b - 87)%N
  else if (65 <=? b)%N && (b <=? 70)%N then Some (b - 55)%N
  else None.

(** [getu4] without the leading [\u]: four hexadecimal digits. *)
Definition hex4 (s : string) : option (N * string) :=
  match s with
  | String a (String b (String c (String d r))) =>
      a ← hexDigit a; b ← hexDigit b; c ← hexDigit c; d ← hexDigit d;
      Some (a * 4096 + b * 256 + c * 16 + d, r)%N
  | _ => None
  end.

(** [utf8.EncodeRune] (the rune is never a surrogate here). *)
Definition encodeRune (r : N) : string :=
  (if r <? 128 then String (chr r) ""
   else if r <? 2048 then
     String (chr (192 + r / 64)) (String (chr (128 + r mod 64)) "")
   else if r <? 65536 then
     String (chr (224 + r / 4096))
       (String (chr (128 + (r / 64) mod 64)) (String (chr (128 + r mod 64)) ""))
   else
     String (chr (240 + r / 262144))
       (String (chr (128 + (r / 4096) mod 64))
          (String (chr (128 + (r / 64) mod 64))
             (String (chr (128 + r mod 64)) ""))))%N.

(** U+FFFD, [unicode.ReplacementChar]. *)
Definition replacementChar : N := 65533.

Definition isCont (lo hi : N) (c : ascii) : bool :=
  (lo <=? byte c)%N && (byte c <=? hi)%N.

(** [utf8.DecodeRune] seen from [unquote]: the number of bytes of the
    well-formed UTF-8 sequence that starts the input, [None] when it starts
    with none (then one byte is replaced by U+FFFD). *)
Definition utf8Size (s : string) : option nat :=
  match s with
  | String c0 r =>
      let b := byte c0 in
      if (b <? 128)%N then Some 1%nat
      else if (194 <=? b)%N && (b <=? 223)%N then
        match r with
        | String c1 _ => if isCont 128 191 c1 then Some 2%nat else None
        | _ => None
        end
      else if (224 <=? b)%N && (b <=? 239)%N then
        let lo := if (b =? 224)%N then 160%N else 128%N in
        let hi := if (b =? 237)%N then 159%N else 191%N in
        match r with
        | String c1 (String c2 _) =>
            if isCont lo hi c1 && isCont 128 191 c2 then Some 3%nat else None
        | _ => None
        end
      else if (240 <=? b)%N && (b <=? 244)%N then
        let lo := if (b =? 240)%N then 144%N else 128%N in
        let hi := if (b =? 244)%N then 143%N else 191%N in
        match r with
        | String c1 (String c2 (String c3 _)) =>
            if isCont lo hi c1 && isCont 128 191 c2 && isCont 128 191 c3
            then Some 4%nat else None
        | _ => None
        end
      else None
  | EmptyString => None
  end.

(** A string literal after its opening quote, unquoted as [unquote] does:
    escapes are replaced, [\uXXXX] becomes the UTF-8 of the rune (of the
    pair, for two surrogate halves; of U+FFFD for a lone half), bytes
    that are not well-formed UTF-8 become U+FFFD; a control character
    below 0x20 is a syntax error. The result is the unquoted string and
    what follows the closing quote. *)
Fixpoint scanString (fuel : nat) (s : string) : option (string * string) :=
  match fuel with
  | O => None
  | S fuel =>
      match s with
      | EmptyString => None
      | String c r =>
          if (byte c =? 34)%N then Some (EmptyString, r)
          else if (byte c =? 92)%N then
            match r with
            | EmptyString => None
            | String e r' =>
                let simple (b : N) :=
                  '(str, rest) ← scanString fuel r'; Some (String (chr b) str, rest) in
                if (byte e =? 34)%N || (byte e =? 92)%N || (byte e =? 47)%N
                then simple (byte e)
                else if (byte e =? 98)%N then simple 8%N
                else if (byte e =? 102)%N then simple 12%N
                else if (byte e =? 110)%N then simple 10%N
                else if (byte e =? 114)%N then simple 13%N
                else if (byte e =? 116)%N then simple 9%N
                else if (byte e =? 117)%N then
                  '(rr, r1) ← hex4 r';
                  let '(rune, r2) :=
                    if (55296 <=? rr)%N && (rr <? 57344)%N then
                      match r1 with
                      | String "\" (String "u" r1') =>
                          match hex4 r1' with
                          | Some (rr1, r2) =>
                              if (rr <? 56320)%N && (56320 <=? rr1)%N && (rr1 <? 57344)%N
                              then (((rr - 55296) * 1024 + (rr1 - 56320) + 65536)%N, r2)
                              else (replacementChar, r1)
                          | None => (replacementChar, r1)
                          end
                      | _ => (replacementChar, r1)
                      end
                    else (rr, r1) in
                  '(str, rest) ← scanString fuel r2;
                  Some (encodeRune rune +:+ str, rest)
                else None
            end
          else if (byte c <? 32)%N then None
          else if (byte c <? 128)%N then
            '(str, rest) ← scanString fuel r; Some (String c str, rest)
          else
            match utf8Size s with
            | Some n =>
                '(str, rest) ← scanString fuel (substring n (String.length s - n) s);
                Some (substring 0 n s +:+ str, rest)
            | None =>
                '(str, rest) ← scanString fuel r;
                Some (encodeRune replacementChar +:+ str, rest)
            end
      end
  end.

(** [maxNestingDepth]. *)
Definition maxNestingDepth : N := 10000.

(** One JSON value at the head of [s] (no leading space), and the input
    that follows it. [depth] counts the arrays and objects that are open;
    [fuel] bounds the recursion, the length of the input is enough. *)
Fixpoint scanValue (fuel : nat) (depth : N) (s : string) : option (json * string) :=
  match fuel with
  | O => None
  | S fuel =>
      match s with
      | String "{" r =>
          if (maxNestingDepth <=? depth)%N then None
          else
            match skipSpace r with
            | String "}" r' => Some (JObject [], r')
            | r' => '(ms, rest) ← scanMembers fuel (depth + 1) r'; Some (JObject ms, rest)
            end
      | String "[" r =>
          if (maxNestingDepth <=? depth)%N then None
          else
            match skipSpace r with
            | String "]" r' => Some (JArray [], r')
            | r' => '(vs, rest) ← scanElems fuel (depth + 1) r'; Some (JArray vs, rest)
            end
      | String "t" (String "r" (String "u" (String "e" r))) => Some (JBool true, r)
      | String "f" (String "a" (String "l" (String "s" (String "e" r)))) =>
          Some (JBool false, r)
      | String "n" (String "u" (String "l" (String "l" r))) => Some (JNull, r)
      | String c r =>
          if (byte c =? 34)%N then
            '(str, rest) ← scanString (S (String.length r)) r; Some (JString str, rest)
          else '(lit, rest) ← scanNumber s; Some (JNumber lit, rest)
      | EmptyString => None
      end
  end
with scanElems (fuel : nat) (depth : N) (s : string) : option (list json * string) :=
  match fuel with
  | O => None
  | S fuel =>
      '(v, r) ← scanValue fuel depth s;
      match skipSpace r with
      | String "," r' =>
          '(vs, rest) ← scanElems fuel depth (skipSpace r'); Some (v :: vs, rest)
      | String "]" r' => Some ([v], r')
      | _ => None
      end
  end
with scanMembers (fuel : nat) (depth : N) (s : string)
  : option (list (string * json) * string) :=
  match fuel with
  | O => None
  | S fuel =>
      match s with
      | String c r =>
          if negb (byte c =? 34)%N then None else
          '(key, r) ← scanString (S (String.length r)) r;
          match skipSpace r with
          | String ":" r =>
              '(v, r) ← scanValue fuel depth (skipSpace r);
              match skipSpace r with
              | String "," r' =>
                  '(ms, rest) ← scanMembers fuel depth (skipSpace r');
                  Some ((key, v) :: ms, rest)
              | String "}" r' => Some ([(key, v)], r')
              | _ => None
              end
          | _ => None
          end
      | _ => None
      end
  end.

(** The first JSON value of a stream, as [Decoder.Decode] reads it: space
    is skipped, and what follows the value is left in the stream. *)
Definition readValue (data : string) : option (json * string) :=
  scanValue (S (String.length data)) 0 (skipSpace data).

(** [checkValid]: the whole input is one value, surrounded by space only. *)
Definition checkValid (data : string) : option json :=
  '(v, rest) ← readValue data;
  match skipSpace rest with
  | EmptyString => Some v
  | _ => None
  end.

(** *** Filling Go values

    [d.value(v)] stores a JSON value into a Go value that already exists:
    [unmarshal j old] is the Go value afterwards, [None] when decoding
    records an error ([UnmarshalTypeError]; Go goes on decoding and
    returns the error at the end, the caller sees a non-nil error either
    way). A JSON [null] leaves a string, a number, a boolean or a struct
    as it is, and sets a pointer, a map, a slice or an interface to nil. *)

Class Unmarshal (A : Type) := unmarshal : json → A → option A.

(** The zero value of a type. *)
Class Zero (A : Type) := zero : A.

#[export] Instance Zero_string : Zero string := EmptyString.
#[export] Instance Zero_bool : Zero bool := false.
#[export] Instance Zero_int : Zero Z := 0.
#[export] Instance Zero_ptr {A} : Zero (option A) := @None A.
#[export] Instance Zero_slice {A} : Zero (list A) := @nil A.
#[export] Instance Zero_map {V} : Zero (gmap string V) := (∅ : gmap string V).

#[export] Instance Unmarshal_string : Unmarshal string := λ v old,
  match v with
  | JString s => Some s
  | JNull => Some old
  | _ => None
  end.

#[export] Instance Unmarshal_bool : Unmarshal bool := λ v old,
  match v with
  | JBool b => Some b
  | JNull => Some old
  | _ => None
  end.

Fixpoint digitsValue (s : string) (acc : Z) : Z :=
  match s with
  | String c r => digitsValue r (10 * acc + Z.of_N (byte c - 48))
  | EmptyString => acc
  end.

(** [strconv.ParseInt(lit, 10, 64)] on a JSON number literal: the literal
    has to be an optional minus sign and digits, within 64 bits. *)
Definition ParseInt64 (lit : string) : option Z :=
  let '(neg, ds) :=
    match lit with
    | String "-" r => (true, r)
    | _ => (false, lit)
    end in
  match digits ds with
  | (String _ _, EmptyString) =>
      let n := if neg then - digitsValue ds 0 else digitsValue ds 0 in
      if (- 2 ^ 63 <=? n) && (n <=? 2 ^ 63 - 1) then Some n else None
  | _ => None
  end.

#[export] Instance Unmarshal_int : Unmarshal Z := λ v old,
  match v with
  | JNumber lit => ParseInt64 lit
  | JNull => Some old
  | _ => None
  end.

(** A pointer: [null] makes it nil; otherwise the value is stored into
    what it points to, allocated first when the pointer is nil. *)
#[export] Instance Unmarshal_ptr {A} `{Unmarshal A, Zero A} : Unmarshal (option A) :=
  λ v old,
  match v with
  | JNull => Some None
  | _ => x ← unmarshal v (default zero old); Some (Some x)
  end.

(** [d.array] into a slice: element [i] is stored into the element [i]
    that exists, or into a zero element the slice grows by; the slice ends
    with as many elements as the array. (An element left between length
    and capacity by an earlier, longer array is not modelled: it takes
    the same key three times in one object to see one.) *)
Fixpoint array {A} `{Unmarshal A, Zero A} (vs : list json) (old : list A)
  : option (list A) :=
  match vs with
  | [] => Some []
  | v :: vs' =>
      x ← unmarshal v (default zero (head old));
      xs ← array vs' (tail old);
      Some (x :: xs)
  end.

#[export] Instance Unmarshal_slice {A} `{Unmarshal A, Zero A} : Unmarshal (list A) :=
  λ v old,
  match v with
  | JNull => Some []
  | JArray vs => array vs old
  | _ => None
  end.

(** [d.object] into a map with string keys: each member is decoded into a
    zero element and stored under its key, in the order of the text. *)
Definition objectMap {V} `{Unmarshal V, Zero V} (ms : list (string * json))
    (old : gmap string V) : option (gmap string V) :=
  foldl (λ acc m, mp ← acc; x ← unmarshal (snd m) zero; Some (<[fst m := x]> mp))
        (Some old) ms.

#[export] Instance Unmarshal_map {V} `{Unmarshal V, Zero V} : Unmarshal (gmap string V) :=
  λ v old,
  match v with
  | JNull => Some ∅
  | JObject ms => objectMap ms old
  | _ => None
  end.

(** [foldName]: the key of a member selects a struct field when both are
    equal up to Unicode simple case folding. The field names are ASCII;
    the only other runes that fold to ASCII letters are U+212A (Kelvin
    sign, to K) and U+017F (long s, to S). *)
Fixpoint foldName (s : string) : string :=
  match s with
  | String "226" (String "132" (String "170" r)) => String "K" (foldName r)
  | String "197" (String "191" r) => String "S" (foldName r)
  | String c r =>
      if (97 <=? byte c)%N && (byte c <=? 122)%N
      then String (chr (byte c - 32)) (foldName r)
      else String c (foldName r)
  | EmptyString => EmptyString
  end.

(** The field a key selects, among the fields [(name, store)] of a struct. *)
Fixpoint field {A} (fields : list (string * (json → A → option A))) (key : string)
  : option (json → A → option A) :=
  match fields with
  | [] => None
  | (name, store) :: fields' =>
      if String.eqb (foldName name) (foldName key) then Some store
      else field fields' key
  end.

(** [d.object] into a struct: the members are stored in the order of the
    text, each into the field its key selects; a member that selects no
    field is skipped. *)
Definition objectStruct {A} (fields : list (string * (json → A → option A)))
    (v : json) (old : A) : option A :=
  match v with
  | JNull => Some old
  | JObject ms =>
      foldl (λ acc m, a ← acc;
                      match field fields (fst m) with
                      | Some store => store (snd m) a
                      | None => Some a
                      end)
            (Some old) ms
  | _ => None
  end.

(** [1.7976931348623157e308 + half an ulp]: a decimal of that magnitude
    or more overflows a float64. *)
Definition float64Overflow : Z := 2 ^ 1024 - 2 ^ 970.

(** Whether [strconv.ParseFloat(lit, 64)] accepts a JSON number literal,
    that is whether its magnitude [d * 10 ^ e] rounds to a finite float64. *)
Definition ParseFloat64_ok (lit : string) : bool :=
  let s := match lit with String "-" r => r | _ => lit end in
  let '(int, s) := digits s in
  let '(frac, s) :=
    match s with
    | String "." r => digits r
    | _ => (EmptyString, s)
    end in
  let exp :=
    match s with
    | String _ (String "-" r) => - digitsValue r 0
    | String _ (String "+" r) => digitsValue r 0
    | String _ r => digitsValue r 0
    | EmptyString => 0
    end in
  let d := digitsValue (int +:+ frac) 0 in
  let e := exp - Z.of_nat (String.length frac) in
  if 0 <=? e then d * 10 ^ e <? float64Overflow
  else d <? float64Overflow * 10 ^ (- e).

(** An [interface{}] takes any value; its numbers become float64. *)
Fixpoint numbersFit (v : json) : bool :=
  match v with
  | JNumber lit => ParseFloat64_ok lit
  | JArray vs => forallb numbersFit vs
  | JObject ms => forallb (λ m, numbersFit (snd m)) ms
  | _ => true
  end.

#[export] Instance Unmarshal_any : Unmarshal (option json) := λ v old,
  match v with
  | JNull => Some None
  | _ => if numbersFit v then Some (Some v) else None
  end.

(** *** The structs of main.go, with their [json:] tags *)

#[export] Instance Zero_Contract : Zero Contract := mkContract "".
#[export] Instance Zero_Optimizer : Zero Optimizer := mkOptimizer false 0.
#[export] Instance Zero_Settings : Zero Settings := mkSettings None ∅ None.
#[export] Instance Zero_SourceCode : Zero SourceCodeDoc := mkSourceCode "" ∅ zero.
#[export] Instance Zero_RawCode : Zero RawCode := RawCode_lit "" false.
#[export] Instance Zero_Response : Zero Response := mkResponse "" "" [].

#[export] Instance Unmarshal_Contract : Unmarshal Contract := objectStruct
  [("content", λ v r, x ← unmarshal v (Content r); Some (mkContract x))].

#[export] Instance Unmarshal_Optimizer : Unmarshal Optimizer := objectStruct
  [("enabled", λ v r, x ← unmarshal v (Enabled r); Some (mkOptimizer x (OptimizerRuns r)));
   ("runs", λ v r, x ← unmarshal v (OptimizerRuns r); Some (mkOptimizer (Enabled r) x))].

#[export] Instance Unmarshal_Settings : Unmarshal Settings := objectStruct
  [("optimizer", λ v r, x ← unmarshal v (SettingsOptimizer r);
      Some (mkSettings x (SettingsOutputSelection r) (Libraries r)));
   ("outputSelection", λ v r, x ← unmarshal v (SettingsOutputSelection r);
      Some (mkSettings (SettingsOptimizer r) x (Libraries r)));
   ("libraries", λ v r, x ← unmarshal v (Libraries r);
      Some (mkSettings (SettingsOptimizer r) (SettingsOutputSelection r) x))].

#[export] Instance Unmarshal_SourceCode : Unmarshal SourceCodeDoc := objectStruct
  [("language", λ v r, x ← unmarshal v (Language r);
      Some (mkSourceCode x (SourceCodeSources r) (SourceCodeSettings r)));
   ("sources", λ v r, x ← unmarshal v (SourceCodeSources r);
      Some (mkSourceCode (Language r) x (SourceCodeSettings r)));
   ("settings", λ v r, x ← unmarshal v (SourceCodeSettings r);
      Some (mkSourceCode (Language r) (SourceCodeSources r) x))].

(** [IsOneSource] has no tag: it is decoded under its own name. *)
#[export] Instance Unmarshal_RawCode : Unmarshal RawCode := objectStruct
  [
   ("SourceCode", λ v r, x ← unmarshal v (SourceCode r);
      Some (mkRawCode x (Abi r) (ContractName r) (CompilerVersion r) (OptimizationUsed r) (Runs r) (ConstructorArguments r) (EVMVersion r) (Library r) (LicenseType r) (Proxy r) (Implementation r) (SwarmSource r) (IsOneSource r)));
   ("ABI", λ v r, x ← unmarshal v (Abi r);
      Some (mkRawCode (SourceCode r) x (ContractName r) (CompilerVersion r) (OptimizationUsed r) (Runs r) (ConstructorArguments r) (EVMVersion r) (Library r) (LicenseType r) (Proxy r) (Implementation r) (SwarmSource r) (IsOneSource r)));
   ("ContractName", λ v r, x ← unmarshal v (ContractName r);
      Some (mkRawCode (SourceCode r) (Abi r) x (CompilerVersion r) (OptimizationUsed r) (Runs r) (ConstructorArguments r) (EVMVersion r) (Library r) (LicenseType r) (Proxy r) (Implementation r) (SwarmSource r) (IsOneSource r)));
   ("CompilerVersion", λ v r, x ← unmarshal v (CompilerVersion r);
      Some (mkRawCode (SourceCode r) (Abi r) (ContractName r) x (OptimizationUsed r) (Runs r) (ConstructorArguments r) (EVMVersion r) (Library r) (LicenseType r) (Proxy r) (Implementation r) (SwarmSource r) (IsOneSource r)));
   ("OptimizationUsed", λ v r, x ← unmarshal v (OptimizationUsed r);
      Some (mkRawCode (SourceCode r) (Abi r) (ContractName r) (CompilerVersion r) x (Runs r) (ConstructorArguments r) (EVMVersion r) (Library r) (LicenseType r) (Proxy r) (Implementation r) (SwarmSource r) (IsOneSource r)));
   ("Runs", λ v r, x ← unmarshal v (Runs r);
      Some (mkRawCode (SourceCode r) (Abi r) (ContractName r) (CompilerVersion r) (OptimizationUsed r) x (ConstructorArguments r) (EVMVersion r) (Library r) (LicenseType r) (Proxy r) (Implementation r) (SwarmSource r) (IsOneSource r)));
   ("ConstructorArguments", λ v r, x ← unmarshal v (ConstructorArguments r);
      Some (mkRawCode (SourceCode r) (Abi r) (ContractName r) (CompilerVersion r) (OptimizationUsed r) (Runs r) x (EVMVersion r) (Library r) (LicenseType r) (Proxy r) (Implementation r) (SwarmSource r) (IsOneSource r)));
   ("EVMVersion", λ v r, x ← unmarshal v (EVMVersion r);
      Some (mkRawCode (SourceCode r) (Abi r) (ContractName r) (CompilerVersion r) (OptimizationUsed r) (Runs r) (ConstructorArguments r) x (Library r) (LicenseType r) (Proxy r) (Implementation r) (SwarmSource r) (IsOneSource r)));
   ("Library", λ v r, x ← unmarshal v (Library r);
      Some (mkRawCode (SourceCode r) (Abi r) (ContractName r) (CompilerVersion r) (OptimizationUsed r) (Runs r) (ConstructorArguments r) (EVMVersion r) x (LicenseType r) (Proxy r) (Implementation r) (SwarmSource r) (IsOneSource r)));
   ("LicenseType", λ v r, x ← unmarshal v (LicenseType r);
      Some (mkRawCode (SourceCode r) (Abi r) (ContractName r) (CompilerVersion r) (OptimizationUsed r) (Runs r) (ConstructorArguments r) (EVMVersion r) (Library r) x (Proxy r) (Implementation r) (SwarmSource r) (IsOneSource r)));
   ("Proxy", λ v r, x ← unmarshal v (Proxy r);
      Some (mkRawCode (SourceCode r) (Abi r) (ContractName r) (CompilerVersion r) (OptimizationUsed r) (Runs r) (ConstructorArguments r) (EVMVersion r) (Library r) (LicenseType r) x (Implementation r) (SwarmSource r) (IsOneSource r)));
   ("Implementation", λ v r, x ← unmarshal v (Implementation r);
      Some (mkRawCode (SourceCode r) (Abi r) (ContractName r) (CompilerVersion r) (OptimizationUsed r) (Runs r) (ConstructorArguments r) (EVMVersion r) (Library r) (LicenseType r) (Proxy r) x (SwarmSource r) (IsOneSource r)));
   ("SwarmSource", λ v r, x ← unmarshal v (SwarmSource r);
      Some (mkRawCode (SourceCode r) (Abi r) (ContractName r) (CompilerVersion r) (OptimizationUsed r) (Runs r) (ConstructorArguments r) (EVMVersion r) (Library r) (LicenseType r) (Proxy r) (Implementation r) x (IsOneSource r)));
   ("IsOneSource", λ v r, x ← unmarshal v (IsOneSource r);
      Some (mkRawCode (SourceCode r) (Abi r) (ContractName r) (CompilerVersion r) (OptimizationUsed r) (Runs r) (ConstructorArguments r) (EVMVersion r) (Library r) (LicenseType r) (Proxy r) (Implementation r) (SwarmSource r) x))].

#[export] Instance Unmarshal_Response : Unmarshal Response := objectStruct
  [("status", λ v r, x ← unmarshal v (Status r); Some (mkResponse x (Message r) (Codes r)));
   ("message", λ v r, x ← unmarshal v (Message r); Some (mkResponse (Status r) x (Codes r)));
   ("result", λ v r, x ← unmarshal v (Codes r); Some (mkResponse (Status r) (Message r) x))].

(** [json.Unmarshal(data, &SourceCode{})]: the input is checked to be one
    JSON value, then stored into a zero struct. *)
Definition Unmarshal_SourceCode_zero (data : string) : option SourceCodeDoc :=
  v ← checkValid data; unmarshal v zero.

(** [json.NewDecoder(bytes.NewBuffer(bs)).Decode(&Response{})]: the first
    value of the stream is stored into a zero struct. *)
Definition Decode_Response_zero (bs : string) : option Response :=
  '(v, _) ← readValue bs; unmarshal v zero.

(** [strconv.ParseUint(lit, 10, 64)] on a JSON number literal: digits
    only, within 64 bits. *)
Definition ParseUint64 (lit : string) : option Z :=
  match digits lit with
  | (String _ _, EmptyString) =>
      let n := digitsValue lit 0 in
      if n <=? 2 ^ 64 - 1 then Some n else None
  | _ => None
  end.

(** A value of kind [uint] ([chain]). *)
Definition unmarshal_uint (v : json) (old : Z) : option Z :=
  match v with
  | JNumber lit => ParseUint64 lit
  | JNull => Some old
  | _ => None
  end.

#[export] Instance Zero_ConfigContract : Zero ConfigContract := mkConfigContract 0 "".
#[export] Instance Zero_Config : Zero Config := mkConfig "" "" ∅.

#[export] Instance Unmarshal_ConfigContract : Unmarshal ConfigContract := objectStruct
  [("chain", λ v r, x ← unmarshal_uint v (Chain r); Some (mkConfigContract x (Address r)));
   ("address", λ v r, x ← unmarshal v (Address r); Some (mkConfigContract (Chain r) x))].

#[export] Instance Unmarshal_Config : Unmarshal Config := objectStruct
  [("target", λ v r, x ← unmarshal v (Target r);
      Some (mkConfig x (ContractDir r) (Contracts r)));
   ("contractDir", λ v r, x ← unmarshal v (ContractDir r);
      Some (mkConfig (Target r) x (Contracts r)));
   ("contracts", λ v r, x ← unmarshal v (Contracts r);
      Some (mkConfig (Target r) (ContractDir r) x))].

(** [json.NewDecoder(bytes.NewBuffer(bs)).Decode(&Config{})]. *)
Definition Decode_Config_zero (bs : string) : option Config :=
  '(v, _) ← readValue bs; unmarshal v zero.

End EncodingJSON.

(** ** Vocabulary of the properties *)

(** A list of entries as the slice [[]*RawCode] of pointers to them. *)
Definition ptrs (entries : list RawCode) : list (option RawCode) := Some <$> entries.

(** The single-flat-source special case: exactly one entry, and its
    flag is set. *)
Definition isOneSourceCase (entries : list RawCode) : bool :=
  match entries with
  | [e] => IsOneSource e
  | _ => false
  end.

(** A string without its first and its last byte; there is none when the
    string has fewer than two bytes. *)
Definition stripped (s : string) : option string :=
  match s with
  | String _ (String b r) => Some (substring 0 (String.length r) (String b r))
  | _ => None
  end.

(** The inner decode of an entry: [None] when its source code has no
    stripped form, [Some None] when the stripped form fails to decode,
    [Some (Some d)] when it decodes to the document [d]. *)
Definition inner (json_Unmarshal : string → option SourceCodeDoc) (e : RawCode)
  : option (option SourceCodeDoc) :=
  json_Unmarshal <$> stripped (SourceCode e).

(** The sources mapping with the synthetic key only. *)
Definition onlyMainSol (text : string) : Sources :=
  {[ "main.sol" := Some (mkContract text) ]}.

(** ** Reference model of path/filepath (Unix)

    [filepath.Clean], [filepath.Join] and [filepath.Dir] on paths seen as
    their elements between slashes. *)

Module Filepath.

(** The elements of a path: what stands between its slashes. *)
Fixpoint split (s : string) : list string :=
  match s with
  | EmptyString => [EmptyString]
  | String c r =>
      if (N_of_ascii c =? 47)%N then EmptyString :: split r
      else
        match split r with
        | e :: es => String c e :: es
        | [] => [String c EmptyString]
        end
  end.

Fixpoint join (sep : string) (es : list string) : string :=
  match es with
  | [] => EmptyString
  | [e] => e
  | e :: es' => e +:+ sep +:+ join sep es'
  end.

(** The lexical processing of [Clean]: [stack] holds, last first, the
    elements kept so far; an empty element and [.] are dropped, [..]
    removes the element before it when there is one that is no [..], is
    dropped at the root, and is kept otherwise. *)
Fixpoint cleanElems (rooted : bool) (stack es : list string) : list string :=
  match es with
  | [] => rev stack
  | e :: es' =>
      if String.eqb e "" || String.eqb e "." then cleanElems rooted stack es'
      else if String.eqb e ".." then
        match stack with
        | top :: stack' =>
            if String.eqb top ".." then cleanElems rooted (e :: stack) es'
            else cleanElems rooted stack' es'
        | [] =>
            if rooted then cleanElems rooted [] es'
            else cleanElems rooted [e] es'
        end
      else cleanElems rooted (e :: stack) es'
  end.

Definition Clean (path : string) : string :=
  match path with
  | EmptyString => "."
  | String c _ =>
      let rooted := (N_of_ascii c =? 47)%N in
      match join "/" (cleanElems rooted [] (split path)), rooted with
      | EmptyString, true => "/"
      | EmptyString, false => "."
      | p, true => "/" +:+ p
      | p, false => p
      end
  end.

(** [Join]: the elements from the first non-empty one on are joined with
    slashes and cleaned; the result is empty when all of them are. *)
Fixpoint Join (elem : list string) : string :=
  match elem with
  | [] => EmptyString
  | e :: elem' =>
      if String.eqb e "" then Join elem' else Clean (join "/" elem)
  end.

(** [Dir]: the path up to its last slash, cleaned. *)
Definition Dir (path : string) : string :=
  match rev (split path) with
  | _ :: before => Clean (join "/" (rev (EmptyString :: before)))
  | [] => "."
  end.

End Filepath.

(** ** Vocabulary of the properties of [run] *)

(** The files an execution has created: the names of its [Create] calls
    that returned no error, in order. *)
Fixpoint created (ev : list event) : list string :=
  match ev with
  | [] => []
  | EvCreate name None :: ev' => name :: created ev'
  | _ :: ev' => created ev'
  end.

Definition isClose (e : event) : bool :=
  match e with
  | EvClose _ => true
  | _ => false
  end.

(** The error of a call of the file system that failed. *)
Definition failure (e : event) : option error :=
  match e with
  | EvMkdirAll _ err => err
  | EvCreate _ err => err
  | _ => None
  end.

(** What [run] does for one source of a bundle when nothing fails. *)
Definition file_events (W : Env) (c : Config) (source : string * option Contract)
  : list event :=
  let f := targetPath W (ContractDir c) (Target c) (fst source) in
  [EvMkdirAll (targetDir W (ContractDir c) (Target c) (fst source)) None;
   EvCreate f None;
   EvWrite f (from_option Content "" (snd source))].

(** The events of all the bundles from rank [i] on, when nothing fails. *)
Fixpoint bundles_events (W : Env) (c : Config) (i : nat) (bundles : list SourceCodeDoc)
  : list event :=
  match bundles with
  | [] => []
  | b :: bundles' =>
      (env_range W i (SourceCodeSources b) ≫= file_events W c)
      ++ bundles_events W c (S i) bundles'
  end.

(** What a run of the loops leaves behind: [ev] has no [Close]; a failed
    call is the last event and its error is what is returned. *)
Definition tidy (ev : list event) (r : Go.run (option error)) : Prop :=
  Forall (λ e, isClose e = false) ev ∧
  match r with
  | Done (Some err) =>
      ∃ ev' e, ev = ev' ++ [e] ∧ failure e = Some err ∧
               Forall (λ e, failure e = None) ev'
  | _ => Forall (λ e, failure e = None) ev
  end.

(** JSON texts are written below with ' where the text has a double
    quote; [dq] puts the double quotes back. *)
Fixpoint dq (s : string) : string :=
  match s with
  | String "'" r => String "034" (dq r)
  | String c r => String c (dq r)
  | EmptyString => EmptyString
  end.

(** A world for the examples: every environment variable holds [KEY],
    the file [config.json] holds [config], the GET is [get]; the decoders
    and the path functions are the reference models; a map is visited in
    the order of [map_to_list]; the file system never fails. *)
Definition sampleEnv (config : string) (get : string → http_result) : Env :=
  mkEnv
    (λ _, "KEY")
    (λ name, if String.eqb name "config.json" then inr config
             else inl "open: no such file or directory")
    (λ bs, match EncodingJSON.Decode_Config_zero bs with
           | Some c => inr c
           | None => inl "config.json: cannot decode"
           end)
    get
    EncodingJSON.Decode_Response_zero
    EncodingJSON.Unmarshal_SourceCode_zero
    Filepath.Join
    Filepath.Dir
    (λ _ m, map_to_list m)
    (λ _ _, None)
    (λ _ _, None).

(** A configuration file, and what it decodes to. *)
Definition sampleConfig : string :=
  dq "{'target':'punks','contractDir':'contracts','contracts':{'punks':{'chain':1,'address':'0xabc'}}}".

Definition sampleConfigDecoded : Config :=
  mkConfig "punks" "contracts" {[ "punks" := mkConfigContract 1 "0xabc" ]}.

(** A configuration whose target is not among its contracts, and one
    whose target is on a chain without explorer. *)
Definition configWithoutTarget : string :=
  dq "{'target':'nobody','contractDir':'contracts','contracts':{}}".

Definition configOtherChain : string :=
  dq "{'target':'punks','contractDir':'contracts','contracts':{'punks':{'chain':5,'address':'0xabc'}}}".

(** A transport that answers every GET with the same body, and one that
    fails every GET. *)
Definition answering (body : string) : string → http_result := λ _, Body body.

Definition offline : string → http_result := λ _, GetFailed "dial tcp: no route to host".

(** An envelope with one structured entry, the source code of that entry
    and the bundle it decodes to. *)
Definition structuredBody : string :=
  dq "{'status':'1','message':'OK','result':[{'SourceCode':'{{\'sources\':{\'A.sol\':{\'content\':\'contract A {}\'}}}}'}]}".

Definition structuredSource : string :=
  dq "{{'sources':{'A.sol':{'content':'contract A {}'}}}}".

Definition structuredBundle : SourceCodeDoc :=
  mkSourceCode "" {[ "A.sol" := Some (mkContract "contract A {}") ]}
               (mkSettings None ∅ None).

(** The same with a [null] for the source. *)
Definition nullSourceBody : string :=
  dq "{'status':'1','message':'OK','result':[{'SourceCode':'{{\'sources\':{\'A.sol\':null}}}'}]}".

Definition nullSourceBundle : SourceCodeDoc :=
  mkSourceCode "" {[ "A.sol" := None ]} (mkSettings None ∅ None).

(** An envelope that reports a failure. *)
Definition failureBody : string :=
  dq "{'status':'0','message':'NOTOK','result':[]}".

(** ** Properties of the run-time operations *)

Lemma bind_ret {A B} (a : A) (k : A → Exec B) : bind (ret a) k = k a.
Proof. unfold bind, ret. destruct (k a) as [c r]. reflexivity. Qed.

Lemma index_0 {A} (a : A) (l : list A) : index (a :: l) 0 = ret a.
Proof.
  unfold index, len_slice. cbn [List.length].
  replace (0 <? Z.of_nat (S (List.length l))) with true
    by (symmetry; apply Z.ltb_lt; lia).
  reflexivity.
Qed.

(** Dropping the last byte and putting it back. *)
Lemma substring_init_last (b : ascii) (r : string) :
  ∃ z, String b r = substring 0 (String.length r) (String b r) +:+ String z "".
Proof.
  revert b. induction r as [|c r IH]; intros b.
  - exists b. reflexivity.
  - destruct (IH c) as [z Hz]. exists z.
    change (String b (String c r) =
            String b (substring 0 (String.length r) (String c r) +:+ String z "")).
    now rewrite <- Hz.
Qed.

Lemma substring_0_append (d x : string) :
  substring 0 (String.length d) (d +:+ x) = d.
Proof.
  induction d as [|c d IH].
  - destruct x; reflexivity.
  - simpl. f_equal. exact IH.
Qed.

Lemma length_append (d x : string) :
  String.length (d +:+ x) = (String.length d + String.length x)%nat.
Proof. induction d as [|c d IH]; simpl; [reflexivity | now rewrite IH]. Qed.

(** [stripped] removes exactly one byte at each end. *)
Lemma stripped_Some (s data : string) :
  stripped s = Some data ↔ ∃ a z, s = String a (data +:+ String z "").
Proof.
  split.
  - destruct s as [|a [|b r]]; cbn [stripped]; try discriminate.
    intros [= <-]. destruct (substring_init_last b r) as [z Hz].
    exists a, z. f_equal. exact Hz.
  - intros (a & z & ->). destruct data as [|b r]; [reflexivity|].
    change (Some (substring 0 (String.length (r +:+ String z ""))
                            (String b r +:+ String z "")) = Some (String b r)).
    rewrite length_append, Nat.add_comm. f_equal.
    apply (substring_0_append (String b r)).
Qed.

Lemma stripped_None (s : string) : stripped s = None ↔ len s < 2.
Proof.
  unfold len. destruct s as [|a [|b r]]; cbn [stripped String.length]; split;
    intros H; try reflexivity; try discriminate; lia.
Qed.

(** The slice expression of the loop is the positional strip. *)
Lemma slice_stripped (s : string) :
  slice s 1 (len s - 1) =
  match stripped s with
  | Some data => ret data
  | None => throw SliceBoundsOutOfRange
  end.
Proof.
  unfold slice. destruct (stripped s) as [data|] eqn:E.
  - apply stripped_Some in E as (a & z & ->).
    assert (Hlen : len (String a (data +:+ String z "")) = Z.of_nat (String.length data) + 2).
    { unfold len. cbn [String.length]. rewrite length_append. cbn. lia. }
    rewrite Hlen.
    replace ((0 <=? 1) && (1 <=? Z.of_nat (String.length data) + 2 - 1)
             && (Z.of_nat (String.length data) + 2 - 1 <=? Z.of_nat (String.length data) + 2))
      with true by (symmetry; rewrite !andb_true_iff, !Z.leb_le; lia).
    replace (Z.to_nat (Z.of_nat (String.length data) + 2 - 1 - 1))
      with (String.length data) by lia.
    change (Z.to_nat 1) with 1%nat. cbn [substring].
    now rewrite substring_0_append.
  - apply stripped_None in E.
    replace ((0 <=? 1) && (1 <=? len s - 1) && (len s - 1 <=? len s))
      with false; [reflexivity|].
    symmetry. apply not_true_is_false. rewrite !andb_true_iff, !Z.leb_le. lia.
Qed.

(** ** The normaliser, [parseContractCode] *)

(** Runs the straight-line part of an execution. *)
Ltac go_run :=
  repeat first
    [ rewrite bind_ret
    | rewrite index_0
    | progress cbn [deref] ].

Section Normalizer.

Variable json_Unmarshal : string → option SourceCodeDoc.

Abbreviation loop := (parseContractCode_loop json_Unmarshal).
Abbreviation parse := (parseContractCode json_Unmarshal).

(** *** One turn of the loop *)

Lemma loop_nil_pointer all rest acc :
  loop all (None :: rest) acc = throw NilPointerDereference.
Proof. reflexivity. Qed.

Lemma loop_short all e rest acc :
  stripped (SourceCode e) = None →
  loop all (Some e :: rest) acc = throw SliceBoundsOutOfRange.
Proof.
  intros H. cbn [parseContractCode_loop deref]. rewrite bind_ret, slice_stripped, H.
  reflexivity.
Qed.

Lemma loop_fail first tl e rest acc data :
  stripped (SourceCode e) = Some data →
  json_Unmarshal data = None →
  loop (Some first :: tl) (Some e :: rest) acc =
  ([data], Done ([mainSol (SourceCode first)], None)).
Proof.
  intros H HU. cbn [parseContractCode_loop deref].
  rewrite bind_ret, slice_stripped, H, bind_ret.
  unfold call_Unmarshal. rewrite HU. cbn [bind].
  rewrite index_0, bind_ret. reflexivity.
Qed.

Lemma loop_ok all e rest acc data d :
  stripped (SourceCode e) = Some data →
  json_Unmarshal data = Some d →
  loop all (Some e :: rest) acc =
  (data :: calls (loop all rest (acc ++ [d])), result (loop all rest (acc ++ [d]))).
Proof.
  intros H HU. cbn [parseContractCode_loop deref].
  rewrite bind_ret, slice_stripped, H, bind_ret.
  unfold call_Unmarshal. rewrite HU. cbn [bind].
  destruct (loop all rest (acc ++ [d])) as [c r]. reflexivity.
Qed.

(** *** Entering the loop *)

Lemma parse_oneSource e :
  IsOneSource e = true →
  parse [Some e] = ([], Done ([mainSol (SourceCode e)], None)).
Proof.
  intros H. unfold parseContractCode.
  change (len_slice [Some e] =? 1) with true. cbv iota.
  go_run. rewrite H. go_run. reflexivity.
Qed.

Lemma parse_enters_loop rawCodes :
  (∀ e, rawCodes = [Some e] → IsOneSource e = false) →
  parse rawCodes = loop rawCodes rawCodes [].
Proof.
  intros H. unfold parseContractCode.
  destruct rawCodes as [|[e|] [|q l]].
  - reflexivity.
  - change (len_slice [Some e] =? 1) with true. cbv iota.
    go_run. rewrite (H e eq_refl). reflexivity.
  - unfold len_slice. cbn [List.length].
    replace (Z.of_nat (S (S (List.length l))) =? 1) with false
      by (symmetry; apply Z.eqb_neq; lia).
    rewrite bind_ret. reflexivity.
  - reflexivity.
  - unfold len_slice. cbn [List.length].
    replace (Z.of_nat (S (S (List.length l))) =? 1) with false
      by (symmetry; apply Z.eqb_neq; lia).
    rewrite bind_ret. reflexivity.
Qed.

Lemma parse_ptrs_enters_loop entries :
  isOneSourceCase entries = false →
  parse (ptrs entries) = loop (ptrs entries) (ptrs entries) [].
Proof.
  intros H. apply parse_enters_loop. intros e He.
  destruct entries as [|e' [|? ?]]; try discriminate.
  injection He as ->. exact H.
Qed.

(** Either the special case returns at once, or the loop runs. *)
Lemma parse_cases rawCodes :
  (∃ e, rawCodes = [Some e] ∧ IsOneSource e = true) ∨
  parse rawCodes = loop rawCodes rawCodes [].
Proof.
  destruct rawCodes as [|[e|] [|q l]];
    try (right; apply parse_enters_loop; intros ? [=]; fail).
  destruct (IsOneSource e) eqn:E.
  - left. eauto.
  - right. apply parse_enters_loop. now intros ? [= <-].
Qed.

(** The turn of the loop that meets a decode failure, whatever the slice
    is: one call, and no error is returned. *)
Lemma loop_fail_any all e rest acc data :
  stripped (SourceCode e) = Some data →
  json_Unmarshal data = None →
  calls (loop all (Some e :: rest) acc) = [data] ∧
  ∀ bundles err,
    result (loop all (Some e :: rest) acc) = Done (bundles, err) → err = None.
Proof.
  intros H HU. destruct all as [|[first|] tl].
  - cbn [parseContractCode_loop deref].
    rewrite bind_ret, slice_stripped, H, bind_ret.
    unfold call_Unmarshal. rewrite HU. cbn. split; [reflexivity | discriminate].
  - rewrite (loop_fail _ _ _ _ _ _ H HU). cbn. split; [reflexivity|].
    now intros ? ? [= _ <-].
  - cbn [parseContractCode_loop deref].
    rewrite bind_ret, slice_stripped, H, bind_ret.
    unfold call_Unmarshal. rewrite HU. cbn [bind]. rewrite index_0, bind_ret.
    cbn. split; [reflexivity | discriminate].
Qed.

Lemma inner_decoded e d :
  inner json_Unmarshal e = Some (Some d) ↔
  ∃ data, stripped (SourceCode e) = Some data ∧ json_Unmarshal data = Some d.
Proof.
  unfold inner. destruct (stripped (SourceCode e)) as [data|]; cbn; split.
  - intros [= H]. eauto.
  - intros (? & [= <-] & ->). reflexivity.
  - discriminate.
  - intros (? & [=] & _).
Qed.

Lemma inner_failed e :
  inner json_Unmarshal e = Some None ↔
  ∃ data, stripped (SourceCode e) = Some data ∧ json_Unmarshal data = None.
Proof.
  unfold inner. destruct (stripped (SourceCode e)) as [data|]; cbn; split.
  - intros [= H]. eauto.
  - intros (? & [= <-] & ->). reflexivity.
  - discriminate.
  - intros (? & [=] & _).
Qed.

(** *** The loop as a whole *)

(** When every entry decodes, the loop appends the decoded documents. *)
Lemma loop_all_decoded all rest acc :
  (∀ e, e ∈ rest → ∃ d, inner json_Unmarshal e = Some (Some d)) →
  ∃ docs,
    result (loop all (ptrs rest) acc) = Done (acc ++ docs, None) ∧
    Forall2 (λ e d, inner json_Unmarshal e = Some (Some d)) rest docs.
Proof.
  revert acc. induction rest as [|e rest IH]; intros acc H.
  - exists []. rewrite app_nil_r. split; [reflexivity | constructor].
  - destruct (H e) as [d Hd]; [left|].
    pose proof Hd as Hd'. apply inner_decoded in Hd' as (data & Hs & HU).
    destruct (IH (acc ++ [d])) as (docs & Hr & Hall).
    { intros x Hx. apply H. now right. }
    exists (d :: docs). change (ptrs (e :: rest)) with (Some e :: ptrs rest).
    rewrite (loop_ok _ _ _ _ _ _ Hs HU). cbn [result snd] in *.
    rewrite Hr, <- app_assoc. split; [reflexivity | now constructor].
Qed.

(** What the loop can return: the documents of all the entries, or the
    fallback bundle after the decode of some entry has failed. *)
Lemma loop_returns first tl rest acc bundles err :
  result (loop (Some first :: tl) (ptrs rest) acc) = Done (bundles, err) →
  err = None ∧
  ((∃ docs, bundles = acc ++ docs ∧
            Forall2 (λ e d, inner json_Unmarshal e = Some (Some d)) rest docs) ∨
   (bundles = [mainSol (SourceCode first)] ∧
    ∃ e, e ∈ rest ∧ inner json_Unmarshal e = Some None)).
Proof.
  revert acc. induction rest as [|e rest IH]; intros acc.
  - cbn. intros [= <- <-]. split; [reflexivity|]. left. exists [].
    rewrite app_nil_r. split; [reflexivity | constructor].
  - change (ptrs (e :: rest)) with (Some e :: ptrs rest).
    destruct (stripped (SourceCode e)) as [data|] eqn:Hs.
    + destruct (json_Unmarshal data) as [d|] eqn:HU.
      * rewrite (loop_ok _ _ _ _ _ _ Hs HU). cbn [result snd]. intros Hr.
        destruct (IH _ Hr) as [-> [(docs & -> & Hall) | (-> & x & Hx & Hfail)]].
        -- split; [reflexivity|]. left. exists (d :: docs).
           rewrite <- app_assoc. split; [reflexivity|]. constructor; [|exact Hall].
           apply inner_decoded. eauto.
        -- split; [reflexivity|]. right. split; [reflexivity|].
           exists x. split; [now right | exact Hfail].
      * rewrite (loop_fail _ _ _ _ _ _ Hs HU). cbn. intros [= <- <-].
        split; [reflexivity|]. right. split; [reflexivity|].
        exists e. split; [left | apply inner_failed; eauto].
    + rewrite (loop_short _ _ _ _ Hs). discriminate.
Qed.

(** The loop panics exactly when it reaches an entry too short to be
    stripped, that is when every entry before that one decodes. *)
Lemma loop_panics first tl rest acc p :
  result (loop (Some first :: tl) (ptrs rest) acc) = Panicked p ↔
  p = SliceBoundsOutOfRange ∧
  ∃ pre e post,
    rest = pre ++ e :: post ∧
    Forall (λ x, ∃ d, inner json_Unmarshal x = Some (Some d)) pre ∧
    len (SourceCode e) < 2.
Proof.
  revert acc. induction rest as [|e rest IH]; intros acc.
  - cbn. split; [discriminate|]. intros (_ & [|? ?] & ? & ? & [=] & _).
  - change (ptrs (e :: rest)) with (Some e :: ptrs rest).
    destruct (stripped (SourceCode e)) as [data|] eqn:Hs.
    + assert (Hlong : ¬ len (SourceCode e) < 2).
      { rewrite <- stripped_None, Hs. discriminate. }
      destruct (json_Unmarshal data) as [d|] eqn:HU.
      * rewrite (loop_ok _ _ _ _ _ _ Hs HU). cbn [result snd]. rewrite IH.
        split; intros (-> & pre & x & post & Hrest & Hpre & Hx);
          (split; [reflexivity|]).
        -- exists (e :: pre), x, post. rewrite Hrest. split; [reflexivity|].
           split; [|exact Hx]. constructor; [|exact Hpre].
           exists d. apply inner_decoded. eauto.
        -- destruct pre as [|e' pre]; injection Hrest as <- Hrest.
           ++ contradiction.
           ++ exists pre, x, post. inversion Hpre; subst. auto.
      * rewrite (loop_fail _ _ _ _ _ _ Hs HU). cbn. split; [discriminate|].
        intros (_ & [|e' pre] & x & post & Hrest & Hpre & Hx);
          injection Hrest as <- Hrest.
        -- contradiction.
        -- inversion Hpre as [|? ? [d Hd] ?]; subst.
           apply inner_decoded in Hd as (data' & Hs' & HU'). congruence.
    + rewrite (loop_short _ _ _ _ Hs). cbn. split.
      * intros [= <-]. split; [reflexivity|]. exists [], e, rest.
        split; [reflexivity|]. split; [constructor | now apply stripped_None].
      * intros (-> & _). reflexivity.
Qed.

(** The fallback is returned when the decode of an entry fails and the
    entries before it can all be stripped. *)
Lemma loop_fallback first tl pre e post acc :
  Forall (λ x, 2 ≤ len (SourceCode x)) pre →
  inner json_Unmarshal e = Some None →
  result (loop (Some first :: tl) (ptrs (pre ++ e :: post)) acc) =
  Done ([mainSol (SourceCode first)], None).
Proof.
  intros Hpre He. revert acc.
  induction Hpre as [|x pre Hx Hpre IH]; intros acc.
  - apply inner_failed in He as (data & Hs & HU).
    change (ptrs ([] ++ e :: post)) with (Some e :: ptrs post).
    now rewrite (loop_fail _ _ _ _ _ _ Hs HU).
  - change (ptrs ((x :: pre) ++ e :: post)) with (Some x :: ptrs (pre ++ e :: post)).
    destruct (stripped (SourceCode x)) as [data|] eqn:Hs.
    + destruct (json_Unmarshal data) as [d|] eqn:HU.
      * rewrite (loop_ok _ _ _ _ _ _ Hs HU). cbn [result snd]. apply IH.
      * now rewrite (loop_fail _ _ _ _ _ _ Hs HU).
    + apply stripped_None in Hs. lia.
Qed.

(** The calls of the loop: the i-th one is for the i-th entry. *)
Lemma loop_calls all rest acc i data :
  calls (loop all rest acc) !! i = Some data →
  ∃ e, rest !! i = Some (Some e) ∧ stripped (SourceCode e) = Some data.
Proof.
  revert acc i. induction rest as [|[e|] rest IH]; intros acc i.
  - cbn. now rewrite lookup_nil.
  - destruct (stripped (SourceCode e)) as [data'|] eqn:Hs.
    + destruct (json_Unmarshal data') as [d|] eqn:HU.
      * rewrite (loop_ok _ _ _ _ _ _ Hs HU). cbn [calls fst].
        destruct i as [|i]; cbn.
        -- intros [= <-]. eauto.
        -- apply IH.
      * destruct (loop_fail_any all e rest acc data' Hs HU) as [-> _].
        destruct i as [|i]; cbn; [|try rewrite lookup_nil; discriminate].
        intros [= <-]. eauto.
    + rewrite (loop_short _ _ _ _ Hs). cbn. now rewrite lookup_nil.
  - rewrite loop_nil_pointer. cbn. now rewrite lookup_nil.
Qed.

Lemma loop_no_error all rest acc bundles err :
  result (loop all rest acc) = Done (bundles, err) → err = None.
Proof.
  revert acc. induction rest as [|[e|] rest IH]; intros acc.
  - cbn. now intros [= _ <-].
  - destruct (stripped (SourceCode e)) as [data|] eqn:Hs.
    + destruct (json_Unmarshal data) as [d|] eqn:HU.
      * rewrite (loop_ok _ _ _ _ _ _ Hs HU). cbn [result snd]. apply IH.
      * destruct (loop_fail_any all e rest acc data Hs HU) as [_ H]. apply H.
    + rewrite (loop_short _ _ _ _ Hs). discriminate.
  - rewrite loop_nil_pointer. discriminate.
Qed.

End Normalizer.

(** ** What the normaliser guarantees *)

Section NormalizerProperties.

Variable json_Unmarshal : string → option SourceCodeDoc.

Abbreviation parse := (parseContractCode json_Unmarshal).

Lemma ptrs_cons_inv entries :
  entries ≠ [] → ∃ first tl, head entries = Some first ∧ ptrs entries = Some first :: tl.
Proof. destruct entries as [|first tl]; [congruence|]. intros _. now exists first, (ptrs tl). Qed.

(** What [parseContractCode] can return for a list of entries. *)
Lemma parse_returns entries bundles err :
  result (parse (ptrs entries)) = Done (bundles, err) →
  Forall2 (λ e b, b = mainSol (SourceCode e) ∨ inner json_Unmarshal e = Some (Some b))
          entries bundles ∨
  (∃ first,
     head entries = Some first ∧
     bundles = [mainSol (SourceCode first)] ∧
     ∃ e, e ∈ entries ∧ inner json_Unmarshal e = Some None).
Proof.
  destruct (parse_cases json_Unmarshal (ptrs entries)) as [(e & He & Hflag) | ->].
  - destruct entries as [|e' [|? ?]]; try discriminate. injection He as ->.
    rewrite (parse_oneSource _ _ Hflag). cbn. intros [= <- <-]. left.
    constructor; [now left | constructor].
  - destruct entries as [|first tl].
    + cbn. intros [= <- <-]. left. constructor.
    + intros H.
      apply (loop_returns json_Unmarshal first (ptrs tl) (first :: tl) []) in H
        as [_ [(docs & -> & Hdocs) | (-> & Hfail)]].
      * left. cbn [app]. eapply Forall2_impl; [exact Hdocs|]. cbn. auto.
      * right. exists first. auto.
Qed.

(** Claim C1, as amended. Outside the single-flat-source special case,
    when the inner JSON decode of the stripped source code of an entry
    fails and every entry before that one has a source code of two bytes
    or more, [parseContractCode] returns, with a nil error, exactly one
    bundle, whose sources map has the only key "main.sol", mapped to the
    raw source code of the first entry; what the earlier entries decoded
    to is dropped. *)
Theorem parseContractCode_fallback (pre : list RawCode) (e : RawCode) (post : list RawCode) :
  isOneSourceCase (pre ++ e :: post) = false →
  Forall (λ x, 2 ≤ len (SourceCode x)) pre →
  inner json_Unmarshal e = Some None →
  ∃ first bundle,
    head (pre ++ e :: post) = Some first ∧
    result (parse (ptrs (pre ++ e :: post))) = Done ([bundle], None) ∧
    SourceCodeSources bundle = onlyMainSol (SourceCode first).
Proof.
  intros Hcase Hpre He.
  destruct (ptrs_cons_inv (pre ++ e :: post)) as (first & tl & Hhd & Hall).
  { now destruct pre. }
  exists first, (mainSol (SourceCode first)). split; [exact Hhd|].
  split; [|reflexivity].
  rewrite parse_ptrs_enters_loop by exact Hcase.
  rewrite Hall at 1. now apply loop_fallback.
Qed.

(** Claim C2. Outside the special case, when the stripped source code of
    every one of the N entries decodes as a structured document,
    [parseContractCode] returns N bundles with a nil error, and the i-th
    bundle maps exactly the paths of the document decoded from the i-th
    entry, each to the same content. *)
Theorem parseContractCode_all_decoded (entries : list RawCode) :
  isOneSourceCase entries = false →
  (∀ e, e ∈ entries → ∃ d, inner json_Unmarshal e = Some (Some d)) →
  ∃ bundles,
    result (parse (ptrs entries)) = Done (bundles, None) ∧
    length bundles = length entries ∧
    ∀ i e, entries !! i = Some e →
      ∃ b d, bundles !! i = Some b ∧
             inner json_Unmarshal e = Some (Some d) ∧
             ∀ path, SourceCodeSources b !! path = SourceCodeSources d !! path.
Proof.
  intros Hcase Hall.
  destruct (loop_all_decoded json_Unmarshal (ptrs entries) entries [] Hall)
    as (docs & Hr & Hdocs).
  exists docs. rewrite parse_ptrs_enters_loop by exact Hcase.
  split; [exact Hr|]. split; [symmetry; eapply Forall2_length, Hdocs|].
  intros i e Hi. destruct (Forall2_lookup_l _ _ _ _ _ Hdocs Hi) as (d & Hd & Hin).
  exists d, d. auto.
Qed.

(** Claim C3. Every string that [parseContractCode] hands to the inner
    JSON decode is the source code of the entry of the same rank without
    its first and its last byte, whatever those two bytes are. *)
Theorem parseContractCode_decodes_stripped
    (rawCodes : list (option RawCode)) (i : nat) (data : string) :
  calls (parse rawCodes) !! i = Some data →
  ∃ e a z,
    rawCodes !! i = Some (Some e) ∧
    SourceCode e = String a (data +:+ String z "").
Proof.
  destruct (parse_cases json_Unmarshal rawCodes) as [(e & -> & He) | ->].
  - rewrite (parse_oneSource _ _ He). cbn. now rewrite lookup_nil.
  - intros H. apply loop_calls in H as (e & Hi & Hs).
    apply stripped_Some in Hs as (a & z & Hs). eauto.
Qed.

(** Claim C4. For a list of exactly one entry whose flag is set,
    [parseContractCode] returns, with a nil error and without any inner
    JSON decode, one bundle whose sources map has the single key
    "main.sol", mapped to the source code of the entry as it is. *)
Theorem parseContractCode_oneSource (e : RawCode) :
  IsOneSource e = true →
  ∃ bundle,
    parse [Some e] = ([], Done ([bundle], None)) ∧
    SourceCodeSources bundle = onlyMainSol (SourceCode e).
Proof.
  intros He. exists (mainSol (SourceCode e)).
  split; [now apply parse_oneSource | reflexivity].
Qed.

(** Claim C7, as amended. When [parseContractCode] returns, either it
    returns one bundle per entry, the i-th bundle made from the i-th
    entry (its decoded document, or "main.sol" with its raw text in the
    special case), so that there are as many bundles as entries; or the
    inner decode of some entry has failed and it returns the fallback
    bundle alone, whatever the number of entries. *)
Theorem parseContractCode_bundle_count
    (entries : list RawCode) (bundles : list SourceCodeDoc) (err : option error) :
  result (parse (ptrs entries)) = Done (bundles, err) →
  (length bundles = length entries ∧
   Forall2 (λ e b, b = mainSol (SourceCode e) ∨ inner json_Unmarshal e = Some (Some b))
           entries bundles) ∨
  (∃ first,
     head entries = Some first ∧
     bundles = [mainSol (SourceCode first)] ∧
     ∃ e, e ∈ entries ∧ inner json_Unmarshal e = Some None).
Proof.
  intros H. apply parse_returns in H as [Hall | Hfb].
  - left. split; [symmetry; eapply Forall2_length, Hall | exact Hall].
  - right. exact Hfb.
Qed.

(** Where a returned bundle comes from: it is the synthetic bundle, with
    the one key "main.sol", or the document decoded from an entry. *)
Lemma parse_bundle_origin entries bundles err b :
  result (parse (ptrs entries)) = Done (bundles, err) →
  b ∈ bundles →
  (size (SourceCodeSources b) = 1%nat ∧
   ∃ text, SourceCodeSources b = onlyMainSol text) ∨
  (∃ e, e ∈ entries ∧ inner json_Unmarshal e = Some (Some b)).
Proof.
  intros H Hb. apply parse_returns in H as [Hall | (first & _ & -> & _)].
  - apply list_elem_of_lookup in Hb as [i Hi].
    destruct (Forall2_lookup_r _ _ _ _ _ Hall Hi) as (e & He & [-> | Hd]).
    + left. split; [apply map_size_singleton | now exists (SourceCode e)].
    + right. exists e. split; [|exact Hd]. apply list_elem_of_lookup. eauto.
  - apply list_elem_of_singleton in Hb as ->.
    left. split; [apply map_size_singleton | now exists (SourceCode first)].
Qed.

(** Claim C8, as amended. A bundle that [parseContractCode] returns has
    at least one entry in its sources map, provided that, when it is the
    document decoded from an entry, that document has a source: the
    synthetic bundle has the entry "main.sol", a decoded document is
    returned with the sources map it has. *)
Theorem parseContractCode_bundle_sources
    (entries : list RawCode) (bundles : list SourceCodeDoc) (err : option error)
    (b : SourceCodeDoc) :
  result (parse (ptrs entries)) = Done (bundles, err) →
  b ∈ bundles →
  (∀ e, e ∈ entries → inner json_Unmarshal e = Some (Some b) →
        SourceCodeSources b ≠ ∅) →
  (1 ≤ size (SourceCodeSources b))%nat.
Proof.
  intros H Hb Hdoc.
  destruct (parse_bundle_origin _ _ _ _ H Hb) as [[-> _] | (e & He & Hd)].
  - reflexivity.
  - specialize (Hdoc e He Hd).
    destruct (size (SourceCodeSources b)) eqn:Hsize; [|lia].
    now apply map_size_empty_iff in Hsize.
Qed.

(** Claim C9, as amended. Outside the special case, [parseContractCode]
    panics exactly when the loop reaches an entry whose source code has
    fewer than two bytes, that is when every entry before that one
    decodes; the panic is then the out-of-range slice. In particular it
    returns whenever every entry has two bytes or more, and a short entry
    that comes after an entry whose decode fails is never reached. *)
Theorem parseContractCode_panics (entries : list RawCode) (p : panic) :
  isOneSourceCase entries = false →
  (result (parse (ptrs entries)) = Panicked p ↔
   p = SliceBoundsOutOfRange ∧
   ∃ pre e post,
     entries = pre ++ e :: post ∧
     Forall (λ x, ∃ d, inner json_Unmarshal x = Some (Some d)) pre ∧
     len (SourceCode e) < 2).
Proof.
  intros Hcase. rewrite parse_ptrs_enters_loop by exact Hcase.
  destruct entries as [|first tl].
  - cbn. split; [discriminate|]. intros (_ & [|? ?] & ? & ? & [=] & _).
  - apply (loop_panics json_Unmarshal first (ptrs tl) (first :: tl) []).
Qed.

(** Claim C10. [parseContractCode] never returns an error: whenever it
    returns, that is whenever it does not panic, its error is nil. *)
Theorem parseContractCode_never_errors
    (rawCodes : list (option RawCode)) (bundles : list SourceCodeDoc)
    (err : option error) :
  result (parse rawCodes) = Done (bundles, err) → err = None.
Proof.
  destruct (parse_cases json_Unmarshal rawCodes) as [(e & -> & He) | ->].
  - rewrite (parse_oneSource _ _ He). cbn. now intros [= _ <-].
  - apply loop_no_error.
Qed.

End NormalizerProperties.

(** ** What the fetcher guarantees *)

Section Fetcher.

Variable http_Get : string → http_result.
Variable json_Decode_Response : string → option Response.

Abbreviation fetch := (getRawContractCode http_Get json_Decode_Response).

Lemma append_empty_r (s : string) : s +:+ "" = s.
Proof.
  induction s as [|c s IH]; [reflexivity|].
  change (String c (s +:+ "") = String c s). f_equal. exact IH.
Qed.

Lemma Contains_append_l (a b sub : string) :
  Contains b sub = true → Contains (a +:+ b) sub = true.
Proof.
  intros H. induction a as [|c a IH]; [exact H|].
  change (Contains (String c (a +:+ b)) sub = true). cbn [Contains].
  rewrite IH. apply orb_true_r.
Qed.

Lemma prefix_append (a b : string) : String.prefix a (a +:+ b) = true.
Proof.
  induction a as [|c a IH]; [now destruct b|].
  change (String.prefix (String c a) (String c (a +:+ b)) = true).
  cbn [String.prefix]. destruct (ascii_dec c c); [exact IH | contradiction].
Qed.

Lemma Contains_prefix (a b : string) : Contains (a +:+ b) a = true.
Proof.
  destruct (a +:+ b) eqn:E; cbn [Contains]; rewrite <- E, prefix_append; reflexivity.
Qed.

(** Claim C5. When the body of the response does not decode as the
    envelope, [getRawContractCode] returns, with a nil error, exactly one
    entry, whose flag is set and whose source code is the body as it is. *)
Theorem getRawContractCode_undecodable_body (endpoint address apiKey bs : string) :
  http_Get (getContractURL endpoint address apiKey) = Body bs →
  json_Decode_Response bs = None →
  ∃ e,
    fetch endpoint address apiKey = ([Some e], None) ∧
    IsOneSource e = true ∧
    SourceCode e = bs.
Proof.
  intros Hget Hdec. exists (RawCode_lit bs true).
  unfold getRawContractCode. rewrite Hget, Hdec. auto.
Qed.

(** The non-success branch: an error is returned, and its text has the
    status at both places of the format. *)
Lemma getRawContractCode_bad_status (endpoint address apiKey bs : string) (r : Response) :
  http_Get (getContractURL endpoint address apiKey) = Body bs →
  json_Decode_Response bs = Some r →
  Status r ≠ "1" →
  fetch endpoint address apiKey =
    ([], Some ("bad status: " +:+ Status r +:+ ", message: " +:+ Status r)) ∧
  Contains ("bad status: " +:+ Status r +:+ ", message: " +:+ Status r) (Status r) = true.
Proof.
  intros Hget Hdec Hst. unfold getRawContractCode. rewrite Hget, Hdec.
  apply String.eqb_neq in Hst. rewrite Hst. cbn [negb].
  split.
  - simpl. rewrite append_empty_r. reflexivity.
  - apply (Contains_append_l "bad status: "). apply Contains_prefix.
Qed.

(** The success branch: the entries of the envelope are returned. *)
Lemma getRawContractCode_success (endpoint address apiKey bs : string) (r : Response) :
  http_Get (getContractURL endpoint address apiKey) = Body bs →
  json_Decode_Response bs = Some r →
  Status r = "1" →
  fetch endpoint address apiKey = (Codes r, None).
Proof.
  intros Hget Hdec Hst. unfold getRawContractCode. rewrite Hget, Hdec, Hst.
  reflexivity.
Qed.

End Fetcher.

(** ** The program on concrete responses

    The two functions run with the reference decoders of [EncodingJSON]. *)

Section Runs.

Import EncodingJSON.

Abbreviation normalize := (parseContractCode Unmarshal_SourceCode_zero).

(** Claim C6. On the body
    [{'status':'0','message':'NOTOK','result':[]}] the envelope decodes,
    with the message NOTOK, and [getRawContractCode] returns an error;
    the text of the error has the status twice and not the message: the
    call of [fmt.Errorf] passes [Status] for both verbs. *)
Theorem getRawContractCode_bad_status_text :
  Decode_Response_zero (dq "{'status':'0','message':'NOTOK','result':[]}") =
    Some (mkResponse "0" "NOTOK" []) ∧
  getRawContractCode
    (λ _, Body (dq "{'status':'0','message':'NOTOK','result':[]}"))
    Decode_Response_zero "https://api.etherscan.io/" "0x00" "KEY" =
    ([], Some "bad status: 0, message: 0") ∧
  Contains "bad status: 0, message: 0" "NOTOK" = false.
Proof. repeat split; vm_compute; reflexivity. Qed.

(** Against claim C1 as stated: the second entry is malformed, the list
    is not the special case, and yet no bundle is returned, because the
    first entry is too short to be stripped. *)
Lemma fallback_preempted_by_short_entry :
  isOneSourceCase [RawCode_lit "" false; RawCode_lit "ab" false] = false ∧
  inner Unmarshal_SourceCode_zero (RawCode_lit "ab" false) = Some None ∧
  result (normalize (ptrs [RawCode_lit "" false; RawCode_lit "ab" false])) =
    Panicked SliceBoundsOutOfRange.
Proof. repeat split; vm_compute; reflexivity. Qed.

(** Against claim C7 as stated: two entries, one bundle. *)
Lemma two_entries_one_bundle :
  result (normalize (ptrs [RawCode_lit "ab" false; RawCode_lit "cd" false])) =
    Done ([mainSol "ab"], None) ∧
  length [mainSol "ab"] ≠ length [RawCode_lit "ab" false; RawCode_lit "cd" false].
Proof. split; [vm_compute; reflexivity | cbn; lia]. Qed.

(** Against claim C8 as stated: the stripped source code [{}] decodes,
    to a document without sources, and the bundle returned has no entry. *)
Lemma bundle_without_sources :
  ∃ b,
    result (normalize (ptrs [RawCode_lit "{{}}" false])) = Done ([b], None) ∧
    SourceCodeSources b = ∅ ∧
    size (SourceCodeSources b) = 0%nat.
Proof.
  exists (mkSourceCode "" ∅ (mkSettings None ∅ None)).
  repeat split; vm_compute; reflexivity.
Qed.

(** Against claim C9 as stated: the list is not the special case and has
    an entry of length 0, and yet there is no panic: the decode of the
    first entry fails and the fallback is returned before the short entry
    is reached. *)
Lemma short_entry_not_reached :
  isOneSourceCase [RawCode_lit "ab" false; RawCode_lit "" false] = false ∧
  len (SourceCode (RawCode_lit "" false)) = 0 ∧
  result (normalize (ptrs [RawCode_lit "ab" false; RawCode_lit "" false])) =
    Done ([mainSol "ab"], None).
Proof. repeat split; vm_compute; reflexivity. Qed.

(** Two entries, the first one well formed, the second one not: the
    bundle is "main.sol" with the raw text of the first one. *)
Lemma parseContractCode_fallback_witness :
  isOneSourceCase
    ([RawCode_lit (dq "{{'sources':{'A.sol':{'content':'contract A {}'}}}}") false]
     ++ RawCode_lit "{not json}" false :: []) = false ∧
  Forall (λ x, 2 ≤ len (SourceCode x))
    [RawCode_lit (dq "{{'sources':{'A.sol':{'content':'contract A {}'}}}}") false] ∧
  inner Unmarshal_SourceCode_zero (RawCode_lit "{not json}" false) = Some None ∧
  ∃ first bundle,
    head ([RawCode_lit (dq "{{'sources':{'A.sol':{'content':'contract A {}'}}}}") false]
          ++ RawCode_lit "{not json}" false :: []) = Some first ∧
    result (normalize (ptrs
      ([RawCode_lit (dq "{{'sources':{'A.sol':{'content':'contract A {}'}}}}") false]
       ++ RawCode_lit "{not json}" false :: []))) = Done ([bundle], None) ∧
    SourceCodeSources bundle = onlyMainSol (SourceCode first).
Proof.
  assert (H1 : isOneSourceCase
    ([RawCode_lit (dq "{{'sources':{'A.sol':{'content':'contract A {}'}}}}") false]
     ++ RawCode_lit "{not json}" false :: []) = false) by reflexivity.
  assert (H2 : Forall (λ x, 2 ≤ len (SourceCode x))
    [RawCode_lit (dq "{{'sources':{'A.sol':{'content':'contract A {}'}}}}") false]).
  { constructor; [vm_compute; discriminate | constructor]. }
  assert (H3 : inner Unmarshal_SourceCode_zero (RawCode_lit "{not json}" false)
               = Some None) by (vm_compute; reflexivity).
  exact (conj H1 (conj H2 (conj H3
    (parseContractCode_fallback Unmarshal_SourceCode_zero _ _ _ H1 H2 H3)))).
Defined.

(** Two well-formed entries give their two documents, in order. *)
Lemma parseContractCode_all_decoded_witness :
  isOneSourceCase
    [RawCode_lit (dq "{{'sources':{'A.sol':{'content':'contract A {}'}}}}") false;
     RawCode_lit (dq "{{'sources':{'B.sol':{'content':'contract B {}'}}}}") false]
    = false ∧
  (∀ e, e ∈ [RawCode_lit (dq "{{'sources':{'A.sol':{'content':'contract A {}'}}}}") false;
             RawCode_lit (dq "{{'sources':{'B.sol':{'content':'contract B {}'}}}}") false] →
        ∃ d, inner Unmarshal_SourceCode_zero e = Some (Some d)) ∧
  ∃ bundles,
    result (normalize (ptrs
      [RawCode_lit (dq "{{'sources':{'A.sol':{'content':'contract A {}'}}}}") false;
       RawCode_lit (dq "{{'sources':{'B.sol':{'content':'contract B {}'}}}}") false]))
      = Done (bundles, None) ∧
    length bundles = 2%nat ∧
    ∀ i e,
      [RawCode_lit (dq "{{'sources':{'A.sol':{'content':'contract A {}'}}}}") false;
       RawCode_lit (dq "{{'sources':{'B.sol':{'content':'contract B {}'}}}}") false]
        !! i = Some e →
      ∃ b d, bundles !! i = Some b ∧
             inner Unmarshal_SourceCode_zero e = Some (Some d) ∧
             ∀ path, SourceCodeSources b !! path = SourceCodeSources d !! path.
Proof.
  assert (H1 : isOneSourceCase
    [RawCode_lit (dq "{{'sources':{'A.sol':{'content':'contract A {}'}}}}") false;
     RawCode_lit (dq "{{'sources':{'B.sol':{'content':'contract B {}'}}}}") false]
    = false) by reflexivity.
  assert (H2 : ∀ e,
    e ∈ [RawCode_lit (dq "{{'sources':{'A.sol':{'content':'contract A {}'}}}}") false;
         RawCode_lit (dq "{{'sources':{'B.sol':{'content':'contract B {}'}}}}") false] →
    ∃ d, inner Unmarshal_SourceCode_zero e = Some (Some d)).
  { intros e He. apply elem_of_cons in He as [-> | He];
      [eexists; vm_compute; reflexivity|].
    apply elem_of_cons in He as [-> | He]; [eexists; vm_compute; reflexivity|].
    now apply elem_of_nil in He. }
  exact (conj H1 (conj H2
    (parseContractCode_all_decoded Unmarshal_SourceCode_zero _ H1 H2))).
Defined.

(** The one call made for the entry [{{}}] is on [{}]. *)
Lemma parseContractCode_decodes_stripped_witness :
  calls (normalize [Some (RawCode_lit "{{}}" false)]) !! 0%nat = Some "{}" ∧
  ∃ e a z,
    [Some (RawCode_lit "{{}}" false)] !! 0%nat = Some (Some e) ∧
    SourceCode e = String a ("{}" +:+ String z "").
Proof.
  assert (H1 : calls (normalize [Some (RawCode_lit "{{}}" false)]) !! 0%nat
               = Some "{}") by (vm_compute; reflexivity).
  exact (conj H1
    (parseContractCode_decodes_stripped Unmarshal_SourceCode_zero _ _ _ H1)).
Defined.

(** A flat source, flagged by the fetcher. *)
Lemma parseContractCode_oneSource_witness :
  IsOneSource (RawCode_lit "pragma solidity ^0.8.0;" true) = true ∧
  ∃ bundle,
    normalize [Some (RawCode_lit "pragma solidity ^0.8.0;" true)] =
      ([], Done ([bundle], None)) ∧
    SourceCodeSources bundle =
      onlyMainSol (SourceCode (RawCode_lit "pragma solidity ^0.8.0;" true)).
Proof.
  assert (H1 : IsOneSource (RawCode_lit "pragma solidity ^0.8.0;" true) = true)
    by reflexivity.
  exact (conj H1 (parseContractCode_oneSource Unmarshal_SourceCode_zero _ H1)).
Defined.

(** A body of plain text is no envelope. *)
Lemma getRawContractCode_undecodable_body_witness :
  (λ _ : string, Body "pragma solidity ^0.8.0;")
    (getContractURL "https://api.etherscan.io/" "0x00" "KEY")
    = Body "pragma solidity ^0.8.0;" ∧
  Decode_Response_zero "pragma solidity ^0.8.0;" = None ∧
  ∃ e,
    getRawContractCode (λ _, Body "pragma solidity ^0.8.0;") Decode_Response_zero
      "https://api.etherscan.io/" "0x00" "KEY" = ([Some e], None) ∧
    IsOneSource e = true ∧
    SourceCode e = "pragma solidity ^0.8.0;".
Proof.
  assert (H1 : (λ _ : string, Body "pragma solidity ^0.8.0;")
                 (getContractURL "https://api.etherscan.io/" "0x00" "KEY")
               = Body "pragma solidity ^0.8.0;") by reflexivity.
  assert (H2 : Decode_Response_zero "pragma solidity ^0.8.0;" = None)
    by (vm_compute; reflexivity).
  exact (conj H1 (conj H2
    (getRawContractCode_undecodable_body (λ _, Body "pragma solidity ^0.8.0;")
       Decode_Response_zero "https://api.etherscan.io/" "0x00" "KEY" _ H1 H2))).
Defined.

(** Two entries, the second one malformed: the fallback side. *)
Lemma parseContractCode_bundle_count_witness :
  result (normalize (ptrs
    [RawCode_lit (dq "{{'sources':{'A.sol':{'content':'contract A {}'}}}}") false;
     RawCode_lit "{not json}" false])) =
    Done ([mainSol (dq "{{'sources':{'A.sol':{'content':'contract A {}'}}}}")], None) ∧
  ((length [mainSol (dq "{{'sources':{'A.sol':{'content':'contract A {}'}}}}")] =
    length [RawCode_lit (dq "{{'sources':{'A.sol':{'content':'contract A {}'}}}}") false;
            RawCode_lit "{not json}" false] ∧
    Forall2 (λ e b, b = mainSol (SourceCode e) ∨
                    inner Unmarshal_SourceCode_zero e = Some (Some b))
      [RawCode_lit (dq "{{'sources':{'A.sol':{'content':'contract A {}'}}}}") false;
       RawCode_lit "{not json}" false]
      [mainSol (dq "{{'sources':{'A.sol':{'content':'contract A {}'}}}}")]) ∨
   (∃ first,
      head [RawCode_lit (dq "{{'sources':{'A.sol':{'content':'contract A {}'}}}}") false;
            RawCode_lit "{not json}" false] = Some first ∧
      [mainSol (dq "{{'sources':{'A.sol':{'content':'contract A {}'}}}}")] =
        [mainSol (SourceCode first)] ∧
      ∃ e, e ∈ [RawCode_lit (dq "{{'sources':{'A.sol':{'content':'contract A {}'}}}}") false;
                RawCode_lit "{not json}" false] ∧
           inner Unmarshal_SourceCode_zero e = Some None)).
Proof.
  assert (H1 : result (normalize (ptrs
    [RawCode_lit (dq "{{'sources':{'A.sol':{'content':'contract A {}'}}}}") false;
     RawCode_lit "{not json}" false])) =
    Done ([mainSol (dq "{{'sources':{'A.sol':{'content':'contract A {}'}}}}")], None))
    by (vm_compute; reflexivity).
  exact (conj H1
    (parseContractCode_bundle_count Unmarshal_SourceCode_zero _ _ _ H1)).
Defined.

(** A decoded document with one source. *)
Lemma parseContractCode_bundle_sources_witness :
  result (normalize (ptrs
    [RawCode_lit (dq "{{'sources':{'A.sol':{'content':'contract A {}'}}}}") false])) =
    Done ([mkSourceCode "" {[ "A.sol" := Some (mkContract "contract A {}") ]}
                        (mkSettings None ∅ None)], None) ∧
  mkSourceCode "" {[ "A.sol" := Some (mkContract "contract A {}") ]}
               (mkSettings None ∅ None)
    ∈ [mkSourceCode "" {[ "A.sol" := Some (mkContract "contract A {}") ]}
                    (mkSettings None ∅ None)] ∧
  (∀ e,
     e ∈ [RawCode_lit (dq "{{'sources':{'A.sol':{'content':'contract A {}'}}}}") false] →
     inner Unmarshal_SourceCode_zero e =
       Some (Some (mkSourceCode "" {[ "A.sol" := Some (mkContract "contract A {}") ]}
                                (mkSettings None ∅ None))) →
     SourceCodeSources
       (mkSourceCode "" {[ "A.sol" := Some (mkContract "contract A {}") ]}
                     (mkSettings None ∅ None)) ≠ ∅) ∧
  (1 ≤ size (SourceCodeSources
       (mkSourceCode "" {[ "A.sol" := Some (mkContract "contract A {}") ]}
                     (mkSettings None ∅ None))))%nat.
Proof.
  assert (H1 : result (normalize (ptrs
    [RawCode_lit (dq "{{'sources':{'A.sol':{'content':'contract A {}'}}}}") false])) =
    Done ([mkSourceCode "" {[ "A.sol" := Some (mkContract "contract A {}") ]}
                        (mkSettings None ∅ None)], None))
    by (vm_compute; reflexivity).
  assert (H2 : mkSourceCode "" {[ "A.sol" := Some (mkContract "contract A {}") ]}
                 (mkSettings None ∅ None)
    ∈ [mkSourceCode "" {[ "A.sol" := Some (mkContract "contract A {}") ]}
                    (mkSettings None ∅ None)]) by apply list_elem_of_here.
  assert (H3 : ∀ e,
     e ∈ [RawCode_lit (dq "{{'sources':{'A.sol':{'content':'contract A {}'}}}}") false] →
     inner Unmarshal_SourceCode_zero e =
       Some (Some (mkSourceCode "" {[ "A.sol" := Some (mkContract "contract A {}") ]}
                                (mkSettings None ∅ None))) →
     SourceCodeSources
       (mkSourceCode "" {[ "A.sol" := Some (mkContract "contract A {}") ]}
                     (mkSettings None ∅ None)) ≠ ∅).
  { intros e _ _. vm_compute. discriminate. }
  exact (conj H1 (conj H2 (conj H3
    (parseContractCode_bundle_sources Unmarshal_SourceCode_zero _ _ _ _ H1 H2 H3)))).
Defined.

(** A well-formed entry, then an entry of one byte. *)
Lemma parseContractCode_panics_witness :
  isOneSourceCase [RawCode_lit "{{}}" false; RawCode_lit "x" false] = false ∧
  (result (normalize (ptrs [RawCode_lit "{{}}" false; RawCode_lit "x" false])) =
     Panicked SliceBoundsOutOfRange ↔
   SliceBoundsOutOfRange = SliceBoundsOutOfRange ∧
   ∃ pre e post,
     [RawCode_lit "{{}}" false; RawCode_lit "x" false] = pre ++ e :: post ∧
     Forall (λ x, ∃ d, inner Unmarshal_SourceCode_zero x = Some (Some d)) pre ∧
     len (SourceCode e) < 2).
Proof.
  assert (H1 : isOneSourceCase [RawCode_lit "{{}}" false; RawCode_lit "x" false]
               = false) by reflexivity.
  exact (conj H1
    (parseContractCode_panics Unmarshal_SourceCode_zero _ SliceBoundsOutOfRange H1)).
Defined.

(** The fallback comes with a nil error. *)
Lemma parseContractCode_never_errors_witness :
  result (normalize [Some (RawCode_lit "{not json}" false)]) =
    Done ([mainSol "{not json}"], None) ∧
  (None : option error) = None.
Proof.
  assert (H1 : result (normalize [Some (RawCode_lit "{not json}" false)]) =
               Done ([mainSol "{not json}"], None)) by (vm_compute; reflexivity).
  exact (conj H1
    (parseContractCode_never_errors Unmarshal_SourceCode_zero _ _ _ H1)).
Defined.

End Runs.

(** ** More on the normaliser *)

Section NormalizerEdges.

Variable json_Unmarshal : string → option SourceCodeDoc.

Abbreviation loop := (parseContractCode_loop json_Unmarshal).
Abbreviation parse := (parseContractCode json_Unmarshal).

Lemma loop_reaches_nil all pre post acc :
  Forall (λ x, ∃ d, inner json_Unmarshal x = Some (Some d)) pre →
  result (loop all (ptrs pre ++ None :: post) acc) = Panicked NilPointerDereference.
Proof.
  intros Hpre. revert acc. induction Hpre as [|x pre [d Hd] _ IH]; intros acc.
  - reflexivity.
  - apply inner_decoded in Hd as (data & Hs & HU).
    change (ptrs (x :: pre) ++ None :: post)
      with (Some x :: (ptrs pre ++ None :: post)).
    rewrite (loop_ok _ _ _ _ _ _ _ Hs HU). cbn [result snd]. apply IH.
Qed.

(** A nil pointer in the slice (a [null] in the result array of the
    envelope) makes [parseContractCode] panic with a nil dereference as
    soon as the loop reaches it, that is when the entries before it all
    decode. *)
Theorem parseContractCode_nil_entry
    (pre : list RawCode) (post : list (option RawCode)) :
  Forall (λ x, ∃ d, inner json_Unmarshal x = Some (Some d)) pre →
  result (parse (ptrs pre ++ None :: post)) = Panicked NilPointerDereference.
Proof.
  intros Hpre. rewrite parse_enters_loop.
  - now apply loop_reaches_nil.
  - intros e He. destruct pre as [|x [|y pre]]; discriminate.
Qed.

Lemma loop_same_sources all1 all2 rest1 rest2 acc :
  Forall2 (option_Forall2 (λ a b, SourceCode a = SourceCode b)) all1 all2 →
  Forall2 (option_Forall2 (λ a b, SourceCode a = SourceCode b)) rest1 rest2 →
  loop all1 rest1 acc = loop all2 rest2 acc.
Proof.
  intros Hall Hrest. revert acc.
  induction Hrest as [|p q rest1 rest2 Hpq _ IH]; intros acc; [reflexivity|].
  destruct Hpq as [a b Hab|]; [|reflexivity].
  cbn [parseContractCode_loop deref]. rewrite !bind_ret, <- Hab.
  rewrite slice_stripped. destruct (stripped (SourceCode a)) as [data|]; [|reflexivity].
  rewrite !bind_ret. unfold call_Unmarshal.
  destruct (json_Unmarshal data) as [d|]; cbn [bind].
  - rewrite IH. reflexivity.
  - destruct Hall as [|p0 q0 ? ? Hpq0 _]; [reflexivity|].
    destruct Hpq0 as [a0 b0 Hab0|]; [|reflexivity].
    rewrite !index_0, !bind_ret. cbn [deref]. rewrite !bind_ret, Hab0. reflexivity.
Qed.

(** [parseContractCode] reads nothing of an entry but its source code
    and, for a list of one entry, its flag: two slices whose entries have
    the same source codes (and, when there is one entry, the same flag)
    give the same execution, decoder calls included. The rest of an entry,
    and the flag in a list of several entries, is never looked at. *)
Theorem parseContractCode_reads_source_and_flag
    (rawCodes1 rawCodes2 : list (option RawCode)) :
  Forall2 (option_Forall2 (λ a b, SourceCode a = SourceCode b)) rawCodes1 rawCodes2 →
  (∀ a b, rawCodes1 = [Some a] → rawCodes2 = [Some b] →
          IsOneSource a = IsOneSource b) →
  parse rawCodes1 = parse rawCodes2.
Proof.
  intros Hsrc Hflag.
  destruct (parse_cases json_Unmarshal rawCodes1) as [(a & -> & Ha) | H1].
  - inversion Hsrc as [|p q ? r2 Hpq Hnil]; subst. inversion Hnil; subst.
    inversion Hpq as [a' b Hab|]; subst.
    rewrite (parse_oneSource _ _ Ha), (parse_oneSource _ b).
    + now rewrite Hab.
    + now rewrite <- (Hflag a b).
  - destruct (parse_cases json_Unmarshal rawCodes2) as [(b & -> & Hb) | H2].
    + inversion Hsrc as [|p q r1 ? Hpq Hnil]; subst. inversion Hnil; subst.
      inversion Hpq as [a b' Hab|]; subst.
      rewrite (parse_oneSource _ _ Hb), (parse_oneSource _ a).
      * now rewrite Hab.
      * now rewrite (Hflag a b).
    + rewrite H1, H2. now apply loop_same_sources.
Qed.

Lemma loop_calls_all_decoded all rest acc :
  (∀ e, e ∈ rest → ∃ d, inner json_Unmarshal e = Some (Some d)) →
  Forall2 (λ e data, stripped (SourceCode e) = Some data)
          rest (calls (loop all (ptrs rest) acc)).
Proof.
  revert acc. induction rest as [|e rest IH]; intros acc H; [constructor|].
  destruct (H e) as [d Hd]; [left|].
  apply inner_decoded in Hd as (data & Hs & HU).
  change (ptrs (e :: rest)) with (Some e :: ptrs rest).
  rewrite (loop_ok _ _ _ _ _ _ _ Hs HU). cbn [calls fst].
  constructor; [exact Hs|]. apply IH. intros x Hx. apply H. now right.
Qed.

(** When every entry decodes, every entry is decoded exactly once and in
    the order of the list: the decoder calls are the stripped source
    codes of the entries, one for one. *)
Theorem parseContractCode_decodes_each_once (entries : list RawCode) :
  isOneSourceCase entries = false →
  (∀ e, e ∈ entries → ∃ d, inner json_Unmarshal e = Some (Some d)) →
  Forall2 (λ e data, stripped (SourceCode e) = Some data)
          entries (calls (parse (ptrs entries))).
Proof.
  intros Hcase Hall. rewrite parse_ptrs_enters_loop by exact Hcase.
  now apply loop_calls_all_decoded.
Qed.

Lemma loop_stops first tl pre e post acc :
  Forall (λ x, ∃ d, inner json_Unmarshal x = Some (Some d)) pre →
  inner json_Unmarshal e = Some None →
  result (loop (Some first :: tl) (ptrs pre ++ Some e :: post) acc) =
    Done ([mainSol (SourceCode first)], None) ∧
  Forall2 (λ x data, stripped (SourceCode x) = Some data) (pre ++ [e])
          (calls (loop (Some first :: tl) (ptrs pre ++ Some e :: post) acc)).
Proof.
  intros Hpre He. apply inner_failed in He as (data & Hs & HU).
  revert acc. induction Hpre as [|x pre [d Hd] _ IH]; intros acc.
  - change (ptrs [] ++ Some e :: post) with (Some e :: post).
    rewrite (loop_fail _ _ _ _ _ _ _ Hs HU). cbn.
    split; [reflexivity | repeat constructor; exact Hs].
  - apply inner_decoded in Hd as (data' & Hs' & HU').
    change (ptrs (x :: pre) ++ Some e :: post)
      with (Some x :: (ptrs pre ++ Some e :: post)).
    rewrite (loop_ok _ _ _ _ _ _ _ Hs' HU'). cbn [result calls fst snd].
    destruct (IH (acc ++ [d])) as [Hr Hc].
    split; [exact Hr | constructor; [exact Hs' | exact Hc]].
Qed.

(** The loop stops at the first entry whose decode fails: the entries up
    to that one are decoded, once each, and what follows it is never
    looked at, be it a nil pointer or an entry too short to be stripped;
    the fallback bundle of the first entry is returned. *)
Theorem parseContractCode_stops_at_first_failure
    (pre : list RawCode) (e : RawCode) (post : list (option RawCode)) :
  (pre = [] → post = [] → IsOneSource e = false) →
  Forall (λ x, ∃ d, inner json_Unmarshal x = Some (Some d)) pre →
  inner json_Unmarshal e = Some None →
  ∃ first,
    head (pre ++ [e]) = Some first ∧
    result (parse (ptrs pre ++ Some e :: post)) =
      Done ([mainSol (SourceCode first)], None) ∧
    Forall2 (λ x data, stripped (SourceCode x) = Some data) (pre ++ [e])
            (calls (parse (ptrs pre ++ Some e :: post))).
Proof.
  intros Hcase Hpre He.
  assert (Hloop : parse (ptrs pre ++ Some e :: post) =
                  loop (ptrs pre ++ Some e :: post) (ptrs pre ++ Some e :: post) []).
  { apply parse_enters_loop. intros x Hx.
    destruct pre as [|y [|z pre]]; try discriminate.
    destruct post; try discriminate. injection Hx as <-. now apply Hcase. }
  rewrite Hloop.
  destruct pre as [|x pre].
  - exists e. split; [reflexivity|].
    apply (loop_stops e post [] e post [] Hpre He).
  - exists x. split; [reflexivity|].
    apply (loop_stops x (ptrs pre ++ Some e :: post) (x :: pre) e post [] Hpre He).
Qed.

(** Whenever [parseContractCode] returns, it returns at most as many
    bundles as there are entries, and no bundle only for the empty list. *)
Theorem parseContractCode_bundle_bound
    (entries : list RawCode) (bundles : list SourceCodeDoc) (err : option error) :
  result (parse (ptrs entries)) = Done (bundles, err) →
  (length bundles ≤ length entries)%nat ∧ (bundles = [] ↔ entries = []).
Proof.
  intros H. apply parse_returns in H as [Hall | (first & Hhd & -> & _)].
  - pose proof (Forall2_length _ _ _ Hall) as Hlen. split; [lia|].
    split; intros ->; [destruct entries | destruct bundles]; done.
  - destruct entries as [|x entries]; [discriminate|]. cbn. split; [lia|].
    split; discriminate.
Qed.

End NormalizerEdges.

(** ** More on the fetcher *)

Section FetcherEdges.

Variable http_Get : string → http_result.
Variable json_Decode_Response : string → option Response.

Abbreviation fetch := (getRawContractCode http_Get json_Decode_Response).

(** [getRawContractCode] returns an error exactly when the GET or the
    read of its body fails, or when the body decodes as an envelope whose
    status is not "1"; and with an error it returns no entry. A body that
    is no envelope is never an error. *)
Theorem getRawContractCode_error_iff (endpoint address apiKey : string) :
  (is_Some (snd (fetch endpoint address apiKey)) ↔
   (∃ err, http_Get (getContractURL endpoint address apiKey) = GetFailed err ∨
           http_Get (getContractURL endpoint address apiKey) = ReadAllFailed err) ∨
   (∃ bs r, http_Get (getContractURL endpoint address apiKey) = Body bs ∧
            json_Decode_Response bs = Some r ∧ Status r ≠ "1")) ∧
  (is_Some (snd (fetch endpoint address apiKey)) →
   fst (fetch endpoint address apiKey) = []).
Proof.
  unfold getRawContractCode.
  destruct (http_Get (getContractURL endpoint address apiKey)) as [err|err|bs] eqn:Hget.
  - split; [|reflexivity]. split; [eauto | intros _; cbn; eauto].
  - split; [|reflexivity]. split; [eauto | intros _; cbn; eauto].
  - destruct (json_Decode_Response bs) as [r|] eqn:Hdec.
    + destruct (String.eqb (Status r) "1") eqn:Hst; cbn [negb].
      * apply String.eqb_eq in Hst. split; [|now intros [? [=]]].
        split; [now intros [? [=]]|].
        intros [(err & [[=] | [=]]) | (bs' & r' & [= <-] & Hr & Hne)].
        congruence.
      * apply String.eqb_neq in Hst. split; [|reflexivity].
        split; [intros _; right; eauto | intros _; cbn; eauto].
    + split; [|now intros [? [=]]]. split; [now intros [? [=]]|].
      intros [(err & [[=] | [=]]) | (bs' & r' & [= <-] & Hr & _)]. congruence.
Qed.

(** The URL of the request is the endpoint, the fixed query and the two
    operands, put end to end: nothing is escaped or checked, and a verb
    inside an operand is not expanded. *)
Theorem getContractURL_append (endpoint address apikey : string) :
  getContractURL endpoint address apikey =
  endpoint +:+ "/api?module=contract&action=getsourcecode&address=" +:+ address
           +:+ "&apikey=" +:+ apikey.
Proof.
  unfold getContractURL. simpl. rewrite append_empty_r. reflexivity.
Qed.

Variable json_Unmarshal : string → option SourceCodeDoc.

(** Fetch, then normalise: a body that does not decode as an envelope
    comes out as the one bundle "main.sol" holding the body as it is,
    without any inner decode and without panic, whatever the body. *)
Theorem fetch_then_normalize_flat (endpoint address apiKey bs : string) :
  http_Get (getContractURL endpoint address apiKey) = Body bs →
  json_Decode_Response bs = None →
  parseContractCode json_Unmarshal (fst (fetch endpoint address apiKey)) =
    ([], Done ([mainSol bs], None)).
Proof.
  intros Hget Hdec. unfold getRawContractCode. rewrite Hget, Hdec. cbn [fst].
  now apply parse_oneSource.
Qed.

End FetcherEdges.

(** ** The runner, [run] and [main] *)

Section Runner.

Variable W : Env.

Lemma created_app (ev1 ev2 : list event) :
  created (ev1 ++ ev2) = created ev1 ++ created ev2.
Proof.
  induction ev1 as [|e ev1 IH]; [reflexivity|].
  destruct e as [? ?|? [?|]|? ?|?]; cbn; now rewrite IH.
Qed.

Lemma created_failed (e : event) (err : error) :
  failure e = Some err → created [e] = [].
Proof. destruct e as [? ?|? [?|]|? ?|?]; cbn; congruence. Qed.

(** *** When nothing fails *)

Section NoFailure.

Hypothesis MkdirAll_ok : ∀ h path, env_MkdirAll W h path = None.
Hypothesis Create_ok : ∀ h name, env_Create W h name = None.

Lemma run_range_ok c sources h d :
  Forall (λ kv, is_Some (snd kv)) sources →
  run_range W c sources (h, d) =
  ((h ++ (sources ≫= file_events W c),
    rev (created (sources ≫= file_events W c)) ++ d), Done None).
Proof.
  intros Hs. revert h d. induction Hs as [|[path source] sources [x Hx] _ IH]; intros h d.
  - cbn. now rewrite app_nil_r.
  - cbn in Hx. subst source. cbn [run_range].
    unfold io_bind at 1. unfold io_MkdirAll at 1. cbn [fst snd].
    rewrite MkdirAll_ok.
    unfold io_bind at 1. unfold io_Create at 1. cbn [fst snd].
    rewrite Create_ok.
    unfold io_bind at 1. unfold io_defer_Close at 1. cbn [fst snd].
    unfold io_bind at 1. unfold io_lift at 1. cbn [deref result ret snd].
    unfold io_bind at 1. unfold io_Write at 1. cbn [fst snd].
    rewrite IH. cbn [mbind list_bind].
    rewrite created_app, rev_app_distr, <- !List.app_assoc. reflexivity.
Qed.

Lemma run_loop_ok c i bundles h d :
  (∀ j b, bundles !! j = Some b →
          Forall (λ kv, is_Some (snd kv)) (env_range W (i + j) (SourceCodeSources b))) →
  run_loop W c i bundles (h, d) =
  ((h ++ bundles_events W c i bundles,
    rev (created (bundles_events W c i bundles)) ++ d), Done None).
Proof.
  revert i h d. induction bundles as [|b bundles IH]; intros i h d Hs.
  - cbn. now rewrite app_nil_r.
  - cbn [run_loop bundles_events]. unfold io_bind at 1.
    rewrite run_range_ok.
    2:{ specialize (Hs 0%nat b eq_refl). now rewrite Nat.add_0_r in Hs. }
    rewrite IH.
    2:{ intros j b' Hj. specialize (Hs (S j) b' Hj).
        now replace (S i + j)%nat with (i + S j)%nat by lia. }
    rewrite created_app, rev_app_distr, <- !List.app_assoc. reflexivity.
Qed.

End NoFailure.

(** *** Whatever fails *)

Lemma tidy_app ev1 ev2 r :
  Forall (λ e, isClose e = false) ev1 →
  Forall (λ e, failure e = None) ev1 →
  tidy ev2 r → tidy (ev1 ++ ev2) r.
Proof.
  intros Hc Hf [Hc2 Hr]. split; [now apply Forall_app|].
  destruct r as [[err|]|p]; try (now apply Forall_app).
  destruct Hr as (ev' & e & -> & He & Hev').
  exists (ev1 ++ ev'), e. rewrite <- List.app_assoc.
  split; [reflexivity|]. split; [exact He | now apply Forall_app].
Qed.

Lemma run_range_tidy c sources h d :
  ∃ ev r,
    run_range W c sources (h, d) = ((h ++ ev, rev (created ev) ++ d), r) ∧
    tidy ev r.
Proof.
  revert h d. induction sources as [|[path source] sources IH]; intros h d.
  - exists [], (Done None). cbn. rewrite app_nil_r.
    split; [reflexivity|]. split; constructor.
  - cbn [run_range].
    set (dir := targetDir W (ContractDir c) (Target c) path).
    set (f := targetPath W (ContractDir c) (Target c) path).
    unfold io_bind at 1. unfold io_MkdirAll at 1. cbn [fst snd].
    destruct (env_MkdirAll W h dir) as [err|] eqn:Hmk.
    { exists [EvMkdirAll dir (Some err)], (Done (Some err)).
      split; [reflexivity|].
      split; [repeat constructor|]. exists [], (EvMkdirAll dir (Some err)).
      repeat split; constructor. }
    unfold io_bind at 1. unfold io_Create at 1. cbn [fst snd].
    destruct (env_Create W (h ++ [EvMkdirAll dir None]) f) as [err|] eqn:Hcr.
    { exists [EvMkdirAll dir None; EvCreate f (Some err)], (Done (Some err)).
      rewrite <- List.app_assoc.
      split; [reflexivity|]. split; [repeat constructor|].
      exists [EvMkdirAll dir None], (EvCreate f (Some err)).
      repeat split; repeat constructor. }
    unfold io_bind at 1. unfold io_defer_Close at 1. cbn [fst snd].
    unfold io_bind at 1. unfold io_lift at 1.
    destruct source as [contract|]; cbn [deref result ret throw snd].
    2:{ exists [EvMkdirAll dir None; EvCreate f None], (Panicked NilPointerDereference).
        rewrite <- List.app_assoc.
        split; [reflexivity|]. split; repeat constructor. }
    unfold io_bind at 1. unfold io_Write at 1. cbn [fst snd].
    destruct (IH (((h ++ [EvMkdirAll dir None]) ++ [EvCreate f None])
                    ++ [EvWrite f (Content contract)]) (f :: d))
      as (ev & r & -> & Ht).
    exists ([EvMkdirAll dir None; EvCreate f None; EvWrite f (Content contract)] ++ ev), r.
    split.
    + rewrite created_app, rev_app_distr, <- !List.app_assoc. reflexivity.
    + apply tidy_app; [repeat constructor | repeat constructor | exact Ht].
Qed.

Lemma run_loop_tidy c i bundles h d :
  ∃ ev r,
    run_loop W c i bundles (h, d) = ((h ++ ev, rev (created ev) ++ d), r) ∧
    tidy ev r.
Proof.
  revert i h d. induction bundles as [|b bundles IH]; intros i h d.
  - exists [], (Done None). cbn. rewrite app_nil_r.
    split; [reflexivity|]. split; constructor.
  - cbn [run_loop]. unfold io_bind at 1.
    destruct (run_range_tidy c (env_range W i (SourceCodeSources b)) h d)
      as (ev1 & r1 & -> & Ht1).
    destruct r1 as [[err|]|p].
    + exists ev1, (Done (Some err)). split; [reflexivity | exact Ht1].
    + destruct (IH (S i) (h ++ ev1) (rev (created ev1) ++ d)) as (ev2 & r2 & -> & Ht2).
      exists (ev1 ++ ev2), r2. split.
      * rewrite created_app, rev_app_distr, <- !List.app_assoc. reflexivity.
      * destruct Ht1 as [Hc1 Hf1]. now apply tidy_app.
    + exists ev1, (Panicked p). split; [reflexivity | exact Ht1].
Qed.

(** The normaliser hands no error to [run]. *)
Lemma parse_result_no_error rawCodes bundles err :
  result (parseContractCode (env_Unmarshal W) rawCodes) = Done (bundles, err) →
  err = None.
Proof.
  destruct (parse_cases (env_Unmarshal W) rawCodes) as [(e & -> & He) | ->].
  - rewrite (parse_oneSource _ _ He). cbn. now intros [= _ <-].
  - apply loop_no_error.
Qed.

(** The body of [run]: where it stops and what it has done by then. *)
Lemma run_body_shape h :
  ∃ ev r,
    run_body W (h, []) = ((h ++ ev, rev (created ev)), r) ∧
    Forall (λ e, isClose e = false) ev ∧
    ∀ err, r = Done (Some err) →
      snd (loadConfig W) = Some err ∨
      (∃ c, fst (loadConfig W) = Some c ∧ snd (run_fetch W c) = Some err) ∨
      (∃ ev' e, ev = ev' ++ [e] ∧ failure e = Some err ∧
                Forall (λ e, failure e = None) ev').
Proof.
  unfold run_body.
  destruct (loadConfig W) as [p [err|]] eqn:Hcfg.
  { exists [], (Done (Some err)). rewrite app_nil_r.
    split; [reflexivity|]. split; [constructor|]. intros ? [= <-]. now left. }
  unfold io_bind at 1. unfold io_lift at 1.
  destruct p as [c|]; cbn [deref result ret throw snd].
  2:{ exists [], (Panicked NilPointerDereference). rewrite app_nil_r.
      split; [reflexivity|]. split; [constructor | discriminate]. }
  destruct (run_fetch W c) as [rawCodes [err|]] eqn:Hfetch.
  { exists [], (Done (Some err)). rewrite app_nil_r.
    split; [reflexivity|]. split; [constructor|]. intros ? [= <-].
    right. left. exists c. now rewrite Hfetch. }
  unfold io_bind at 1. unfold io_lift at 1.
  destruct (result (parseContractCode (env_Unmarshal W) rawCodes))
    as [[bundles err]|p] eqn:Hparse.
  2:{ exists [], (Panicked p). rewrite app_nil_r.
      split; [reflexivity|]. split; [constructor | discriminate]. }
  pose proof (parse_result_no_error _ _ _ Hparse) as ->.
  destruct (run_loop_tidy c 0 bundles h []) as (ev & r & Hloop & Hc & Hr).
  exists ev, r. rewrite app_nil_r in Hloop.
  split; [exact Hloop|]. split; [exact Hc|].
  intros err ->. right. right. exact Hr.
Qed.

(** Every file that [run] creates it closes, once, whether it returns,
    fails or panics: what [run] adds to the events is calls other than
    [Close], and then the [Close] of each file created by them, the last
    created first. *)
Theorem run_closes_what_it_created (h0 : list event) :
  ∃ ev,
    fst (run W h0) = h0 ++ ev ++ (EvClose <$> rev (created ev)) ∧
    Forall (λ e, isClose e = false) ev.
Proof.
  destruct (run_body_shape h0) as (ev & r & Hbody & Hc & _).
  exists ev. unfold run. rewrite Hbody. cbn [fst].
  now rewrite <- List.app_assoc.
Qed.

(** An error returned by [run] is the error of the loading of the
    configuration, or the error of the fetch, or the error of a
    [MkdirAll] or of a [Create]; in the last case the failed call is the
    last one before the closes and no call before it failed. (A failed
    [Write] or [Close] is never reported, and the normaliser gives no
    error.) *)
Theorem run_error_origin (h0 : list event) (err : error) :
  snd (run W h0) = Done (Some err) →
  snd (loadConfig W) = Some err ∨
  (∃ c, fst (loadConfig W) = Some c ∧ snd (run_fetch W c) = Some err) ∨
  (∃ ev e,
     fst (run W h0) = h0 ++ ev ++ e :: (EvClose <$> rev (created ev)) ∧
     failure e = Some err ∧
     Forall (λ e, failure e = None) ev).
Proof.
  destruct (run_body_shape h0) as (ev & r & Hbody & _ & Hr).
  unfold run. rewrite Hbody. cbn [fst snd]. intros ->.
  destruct (Hr err eq_refl) as [H | [H | (ev' & e & -> & He & Hev')]];
    [now left | now right; left |].
  right. right. exists ev', e.
  rewrite created_app, (created_failed _ _ He), app_nil_r, <- !List.app_assoc.
  auto.
Qed.

(** *** The whole run *)

Lemma range_no_nil i (m : Sources) :
  (∀ j m', env_range W j m' ≡ₚ map_to_list m') →
  (∀ path, m !! path ≠ Some None) →
  Forall (λ kv, is_Some (snd kv)) (env_range W i m).
Proof.
  intros Hperm Hm. apply Forall_forall. intros [path [ct|]] Hin; [now eexists|].
  rewrite (Hperm i m) in Hin. apply elem_of_map_to_list in Hin.
  now destruct (Hm path).
Qed.

Lemma run_success c rawCodes bundles err h0 :
  loadConfig W = (Some c, None) →
  run_fetch W c = (rawCodes, None) →
  result (parseContractCode (env_Unmarshal W) rawCodes) = Done (bundles, err) →
  (∀ h path, env_MkdirAll W h path = None) →
  (∀ h name, env_Create W h name = None) →
  (∀ i m, env_range W i m ≡ₚ map_to_list m) →
  (∀ b path, b ∈ bundles → SourceCodeSources b !! path ≠ Some None) →
  run W h0 =
  (h0 ++ bundles_events W c 0 bundles
      ++ (EvClose <$> rev (created (bundles_events W c 0 bundles))),
   Done None).
Proof.
  intros Hcfg Hfetch Hparse Hmk Hcr Hperm Hnil.
  pose proof (parse_result_no_error _ _ _ Hparse) as ->.
  unfold run, run_body. rewrite Hcfg.
  unfold io_bind at 1. unfold io_lift at 1. cbn [deref result ret snd].
  rewrite Hfetch. unfold io_bind at 1. unfold io_lift at 1. rewrite Hparse.
  rewrite (run_loop_ok Hmk Hcr).
  - now rewrite app_nil_r, <- List.app_assoc.
  - intros j b Hj. apply range_no_nil; [exact Hperm|].
    intros path. apply Hnil. apply list_elem_of_lookup. eauto.
Qed.

(** When the configuration loads, the fetch and the normaliser return,
    no source is a nil pointer and the file system does not fail, [run]
    returns nil after exactly these calls: for each bundle in order, for
    each of its sources in the order of the visit, the [MkdirAll] of the
    directory of its path under the contract directory and the target,
    the [Create] of the file, and one [Write] of its content as it is;
    then the [Close] of every file, the last created first. *)
Theorem run_writes_every_source
    (c : Config) (rawCodes : list (option RawCode)) (bundles : list SourceCodeDoc)
    (err : option error) (h0 : list event) :
  loadConfig W = (Some c, None) →
  run_fetch W c = (rawCodes, None) →
  result (parseContractCode (env_Unmarshal W) rawCodes) = Done (bundles, err) →
  (∀ h path, env_MkdirAll W h path = None) →
  (∀ h name, env_Create W h name = None) →
  (∀ i m, env_range W i m ≡ₚ map_to_list m) →
  (∀ b path, b ∈ bundles → SourceCodeSources b !! path ≠ Some None) →
  run W h0 =
  (h0 ++ bundles_events W c 0 bundles
      ++ (EvClose <$> rev (created (bundles_events W c 0 bundles))),
   Done None).
Proof.
  intros Hcfg Hfetch Hparse Hmk Hcr Hperm Hnil.
  pose proof (parse_result_no_error _ _ _ Hparse) as ->.
  unfold run, run_body. rewrite Hcfg.
  unfold io_bind at 1. unfold io_lift at 1. cbn [deref result ret snd].
  rewrite Hfetch. unfold io_bind at 1. unfold io_lift at 1. rewrite Hparse.
  rewrite (run_loop_ok Hmk Hcr).
  - now rewrite app_nil_r, <- List.app_assoc.
  - intros j b Hj. apply range_no_nil; [exact Hperm|].
    intros path. apply Hnil. apply list_elem_of_lookup. eauto.
Qed.

Lemma bundles_events_elem c i bundles j b kv e :
  bundles !! j = Some b →
  kv ∈ env_range W (i + j) (SourceCodeSources b) →
  e ∈ file_events W c kv →
  e ∈ bundles_events W c i bundles.
Proof.
  revert i j. induction bundles as [|b' bundles IH]; intros i j Hj Hkv He.
  - now rewrite lookup_nil in Hj.
  - cbn [bundles_events]. apply elem_of_app. destruct j as [|j].
    + injection Hj as ->. left. rewrite Nat.add_0_r in Hkv.
      apply list_elem_of_bind. eauto.
    + right. apply (IH (S i) j); [exact Hj | | exact He].
      now replace (S i + j)%nat with (i + S j)%nat by lia.
Qed.

(** Under the same conditions every source of every bundle is written:
    for a path that a returned bundle maps to a content, the events of
    [run] have the [Write] of that content, byte for byte, to the file at
    that path under the contract directory and the target. *)
Theorem run_writes_each_content
    (c : Config) (rawCodes : list (option RawCode)) (bundles : list SourceCodeDoc)
    (err : option error) (h0 : list event)
    (b : SourceCodeDoc) (path : string) (contract : Contract) :
  loadConfig W = (Some c, None) →
  run_fetch W c = (rawCodes, None) →
  result (parseContractCode (env_Unmarshal W) rawCodes) = Done (bundles, err) →
  (∀ h path, env_MkdirAll W h path = None) →
  (∀ h name, env_Create W h name = None) →
  (∀ i m, env_range W i m ≡ₚ map_to_list m) →
  (∀ b path, b ∈ bundles → SourceCodeSources b !! path ≠ Some None) →
  b ∈ bundles →
  SourceCodeSources b !! path = Some (Some contract) →
  EvWrite (targetPath W (ContractDir c) (Target c) path) (Content contract)
    ∈ fst (run W h0).
Proof.
  intros Hcfg Hfetch Hparse Hmk Hcr Hperm Hnil Hb Hpath.
  rewrite (run_success _ _ _ _ h0 Hcfg Hfetch Hparse Hmk Hcr Hperm Hnil). cbn [fst].
  apply elem_of_app. right. apply elem_of_app. left.
  apply list_elem_of_lookup in Hb as [j Hj].
  apply (bundles_events_elem c 0 bundles j b (path, Some contract)); [exact Hj | |].
  - rewrite (Hperm (0 + j)%nat). now apply elem_of_map_to_list.
  - cbn. right. right. left.
Qed.

(** The end-to-end run on a flat source: when the configuration loads,
    the body of the response is no envelope and the file system does not
    fail, [main] writes the body as it is to the one file "main.sol" under
    the contract directory and the target, closes it, and ends with
    status 0. *)
Theorem main_flat_body (c : Config) (bs : string) (h0 : list event) :
  loadConfig W = (Some c, None) →
  (∀ url, env_Get W url = Body bs) →
  env_Decode_Response W bs = None →
  (∀ h path, env_MkdirAll W h path = None) →
  (∀ h name, env_Create W h name = None) →
  (∀ i m, env_range W i m ≡ₚ map_to_list m) →
  main W h0 =
  (h0 ++ [EvMkdirAll (targetDir W (ContractDir c) (Target c) "main.sol") None;
          EvCreate (targetPath W (ContractDir c) (Target c) "main.sol") None;
          EvWrite (targetPath W (ContractDir c) (Target c) "main.sol") bs;
          EvClose (targetPath W (ContractDir c) (Target c) "main.sol")],
   Exited 0 "").
Proof.
  intros Hcfg Hget Hdec Hmk Hcr Hperm.
  assert (Hfetch : run_fetch W c = ([Some (RawCode_lit bs true)], None)).
  { unfold run_fetch, getRawContractCode. now rewrite Hget, Hdec. }
  assert (Hparse : result (parseContractCode (env_Unmarshal W)
                             [Some (RawCode_lit bs true)])
                   = Done ([mainSol bs], None)).
  { now rewrite parse_oneSource. }
  unfold main.
  rewrite (run_success _ _ _ _ h0 Hcfg Hfetch Hparse Hmk Hcr Hperm).
  - cbn [bundles_events]. 
    assert (Hrange : env_range W 0 (SourceCodeSources (mainSol bs))
                     = [("main.sol", Some (mkContract bs))]).
    { apply Permutation_singleton_r. rewrite Hperm. cbn [mainSol SourceCodeSources].
      now rewrite map_to_list_singleton. }
    rewrite Hrange. reflexivity.
  - intros b path Hb. apply list_elem_of_singleton in Hb as ->.
    cbn [mainSol SourceCodeSources]. intros H.
    apply lookup_singleton_Some in H as [_ [=]].
Qed.

(** When the explorer reports a failure (an envelope whose status is not
    "1"), [main] touches no file: it ends with status 1 after printing
    the error, which names the status, and a newline. *)
Theorem main_bad_status (c : Config) (bs : string) (r : Response) (h0 : list event) :
  loadConfig W = (Some c, None) →
  (∀ url, env_Get W url = Body bs) →
  env_Decode_Response W bs = Some r →
  Status r ≠ "1" →
  main W h0 =
  (h0, Exited 1 (("bad status: " +:+ Status r +:+ ", message: " +:+ Status r)
                 +:+ String "010" "")).
Proof.
  intros Hcfg Hget Hdec Hst.
  assert (Hfetch : run_fetch W c =
            ([], Some ("bad status: " +:+ Status r +:+ ", message: " +:+ Status r))).
  { unfold run_fetch. cbv zeta.
    eapply proj1, getRawContractCode_bad_status; [apply Hget | exact Hdec | exact Hst]. }
  unfold main, run, run_body. rewrite Hcfg.
  unfold io_bind at 1. unfold io_lift at 1. cbn [deref result ret snd].
  rewrite Hfetch. cbn. now rewrite app_nil_r.
Qed.

(** What [main] does once the fetch has failed. *)
Lemma main_fetch_failed c err h0 :
  loadConfig W = (Some c, None) →
  snd (run_fetch W c) = Some err →
  main W h0 = (h0, Exited 1 (err +:+ String "010" "")).
Proof.
  intros Hcfg Hfetch. unfold main, run, run_body. rewrite Hcfg.
  unfold io_bind at 1. unfold io_lift at 1. cbn [deref result ret snd].
  destruct (run_fetch W c) as [l o]. cbn in Hfetch. subst o.
  cbn. now rewrite app_nil_r.
Qed.

(** A target that the configuration does not have is not reported as
    such: the request goes out with an empty endpoint, address and key,
    that is for the URL below; when that GET fails, [main] prints its
    error, ends with status 1 and touches no file. *)
Theorem main_unknown_target (c : Config) (err : error) (h0 : list event) :
  loadConfig W = (Some c, None) →
  Contracts c !! Target c = None →
  env_Get W "/api?module=contract&action=getsourcecode&address=&apikey="
    = GetFailed err →
  main W h0 = (h0, Exited 1 (err +:+ String "010" "")).
Proof.
  intros Hcfg Htarget Hget. apply (main_fetch_failed c); [exact Hcfg|].
  unfold run_fetch. rewrite Htarget. cbn [from_option id Chain Address].
  replace (blockExploers W !! 0) with (@None blockExplorer).
  - cbn [from_option id endpoint apiKey]. unfold getRawContractCode.
    change (getContractURL "" "" "")
      with "/api?module=contract&action=getsourcecode&address=&apikey=".
    now rewrite Hget.
  - symmetry. unfold blockExploers.
    rewrite lookup_insert_ne by discriminate. now apply lookup_singleton_ne.
Qed.

(** A target on a chain other than ethereum (1) and polygon (137) has no
    explorer: the request goes out with an empty endpoint and an empty
    key, for the URL below; when that GET fails, [main] prints its error,
    ends with status 1 and touches no file. *)
Theorem main_unknown_chain
    (c : Config) (target : ConfigContract) (err : error) (h0 : list event) :
  loadConfig W = (Some c, None) →
  Contracts c !! Target c = Some target →
  Chain target ≠ ethereum →
  Chain target ≠ polygon →
  env_Get W ("/api?module=contract&action=getsourcecode&address="
             +:+ Address target +:+ "&apikey=") = GetFailed err →
  main W h0 = (h0, Exited 1 (err +:+ String "010" "")).
Proof.
  intros Hcfg Htarget He Hp Hget. apply (main_fetch_failed c); [exact Hcfg|].
  unfold run_fetch. rewrite Htarget. cbn [from_option id].
  replace (blockExploers W !! Chain target) with (@None blockExplorer).
  - cbn [from_option id endpoint apiKey]. unfold getRawContractCode. cbv zeta.
    replace (getContractURL "" (Address target) "")
      with ("/api?module=contract&action=getsourcecode&address="
            +:+ Address target +:+ "&apikey=").
    + now rewrite Hget.
    + unfold getContractURL. simpl. reflexivity.
  - symmetry. unfold blockExploers.
    rewrite lookup_insert_ne by (intros H; now apply He).
    apply lookup_singleton_ne. intros H. now apply Hp.
Qed.

(** A target on ethereum or on polygon is requested from the explorer of
    its chain, with the key of the environment variable of that chain;
    the URL is the endpoint, which ends with a slash, followed by
    [/api?...]. When that GET fails, [main] prints its error, ends with
    status 1 and touches no file. *)
Theorem main_known_chain
    (c : Config) (target : ConfigContract) (host variable : string)
    (err : error) (h0 : list event) :
  loadConfig W = (Some c, None) →
  Contracts c !! Target c = Some target →
  (Chain target = ethereum ∧ host = "https://api.etherscan.io/" ∧
   variable = "ETHERSCAN_APIKEY") ∨
  (Chain target = polygon ∧ host = "https://api.polygonscan.com/" ∧
   variable = "POLYGONSCAN_APIKEY") →
  env_Get W (host +:+ "/api?module=contract&action=getsourcecode&address="
             +:+ Address target +:+ "&apikey=" +:+ env_Getenv W variable)
    = GetFailed err →
  main W h0 = (h0, Exited 1 (err +:+ String "010" "")).
Proof.
  intros Hcfg Htarget Hchain Hget. apply (main_fetch_failed c); [exact Hcfg|].
  unfold run_fetch. rewrite Htarget. cbn [from_option id].
  destruct Hchain as [(-> & -> & ->) | (-> & -> & ->)].
  - unfold blockExploers. rewrite lookup_insert_eq. cbn [from_option id endpoint apiKey].
    unfold getRawContractCode. cbv zeta.
    replace (getContractURL "https://api.etherscan.io/" (Address target)
               (env_Getenv W "ETHERSCAN_APIKEY"))
      with ("https://api.etherscan.io/"
            +:+ "/api?module=contract&action=getsourcecode&address="
            +:+ Address target +:+ "&apikey=" +:+ env_Getenv W "ETHERSCAN_APIKEY").
    + now rewrite Hget.
    + unfold getContractURL. simpl. now rewrite append_empty_r.
  - unfold blockExploers. rewrite lookup_insert_ne by discriminate.
    rewrite lookup_singleton_eq. cbn [from_option id endpoint apiKey].
    unfold getRawContractCode. cbv zeta.
    replace (getContractURL "https://api.polygonscan.com/" (Address target)
               (env_Getenv W "POLYGONSCAN_APIKEY"))
      with ("https://api.polygonscan.com/"
            +:+ "/api?module=contract&action=getsourcecode&address="
            +:+ Address target +:+ "&apikey=" +:+ env_Getenv W "POLYGONSCAN_APIKEY").
    + now rewrite Hget.
    + unfold getContractURL. simpl. now rewrite append_empty_r.
Qed.

(** A source that is a nil pointer (a [null] for a path of the sources
    of a document) makes [main] crash once the loop visits it: its file
    has been created by then and is left empty, and it is still closed. *)
Theorem main_nil_source
    (c : Config) (rawCodes : list (option RawCode)) (b : SourceCodeDoc)
    (bundles : list SourceCodeDoc) (err : option error)
    (path : string) (rest : list (string * option Contract)) (h0 : list event) :
  loadConfig W = (Some c, None) →
  run_fetch W c = (rawCodes, None) →
  result (parseContractCode (env_Unmarshal W) rawCodes) = Done (b :: bundles, err) →
  env_range W 0 (SourceCodeSources b) = (path, None) :: rest →
  env_MkdirAll W h0 (targetDir W (ContractDir c) (Target c) path) = None →
  env_Create W (h0 ++ [EvMkdirAll (targetDir W (ContractDir c) (Target c) path) None])
             (targetPath W (ContractDir c) (Target c) path) = None →
  main W h0 =
  (h0 ++ [EvMkdirAll (targetDir W (ContractDir c) (Target c) path) None;
          EvCreate (targetPath W (ContractDir c) (Target c) path) None;
          EvClose (targetPath W (ContractDir c) (Target c) path)],
   Crashed NilPointerDereference).
Proof.
  intros Hcfg Hfetch Hparse Hrange Hmk Hcr.
  pose proof (parse_result_no_error _ _ _ Hparse) as ->.
  unfold main, run, run_body. rewrite Hcfg.
  unfold io_bind at 1. unfold io_lift at 1. cbn [deref result ret snd].
  rewrite Hfetch. unfold io_bind at 1. unfold io_lift at 1. rewrite Hparse.
  cbn [run_loop]. rewrite Hrange. cbn [run_range].
  unfold io_bind at 1. unfold io_bind at 1. unfold io_MkdirAll at 1. cbn [fst snd].
  rewrite Hmk.
  unfold io_bind at 1. unfold io_Create at 1. cbn [fst snd]. rewrite Hcr.
  cbn. now rewrite <- !List.app_assoc.
Qed.

End Runner.

(** ** More concrete runs *)

Section MoreRuns.

Import EncodingJSON.

Abbreviation world := (sampleEnv sampleConfig (answering structuredBody)).

(** A well-formed entry, then a nil pointer. *)
Lemma parseContractCode_nil_entry_witness :
  Forall (λ x, ∃ d, inner Unmarshal_SourceCode_zero x = Some (Some d))
         [RawCode_lit structuredSource false] ∧
  result (parseContractCode Unmarshal_SourceCode_zero
            (ptrs [RawCode_lit structuredSource false] ++ None :: [])) =
    Panicked NilPointerDereference.
Proof.
  assert (H1 : Forall (λ x, ∃ d, inner Unmarshal_SourceCode_zero x = Some (Some d))
                      [RawCode_lit structuredSource false]).
  { constructor; [eexists; vm_compute; reflexivity | constructor]. }
  exact (conj H1 (parseContractCode_nil_entry Unmarshal_SourceCode_zero _ _ H1)).
Defined.

(** Two entries each; they differ in their flags and in a name. *)
Lemma parseContractCode_reads_source_and_flag_witness :
  Forall2 (option_Forall2 (λ a b, SourceCode a = SourceCode b))
    [Some (RawCode_lit structuredSource false); Some (RawCode_lit "ab" false)]
    [Some (mkRawCode structuredSource "" "A" "" "" "" "" "" "" "" "" "" "" true);
     Some (RawCode_lit "ab" true)] ∧
  (∀ a b,
     [Some (RawCode_lit structuredSource false); Some (RawCode_lit "ab" false)]
       = [Some a] →
     [Some (mkRawCode structuredSource "" "A" "" "" "" "" "" "" "" "" "" "" true);
      Some (RawCode_lit "ab" true)] = [Some b] →
     IsOneSource a = IsOneSource b) ∧
  parseContractCode Unmarshal_SourceCode_zero
    [Some (RawCode_lit structuredSource false); Some (RawCode_lit "ab" false)] =
  parseContractCode Unmarshal_SourceCode_zero
    [Some (mkRawCode structuredSource "" "A" "" "" "" "" "" "" "" "" "" "" true);
     Some (RawCode_lit "ab" true)].
Proof.
  assert (H1 : Forall2 (option_Forall2 (λ a b, SourceCode a = SourceCode b))
    [Some (RawCode_lit structuredSource false); Some (RawCode_lit "ab" false)]
    [Some (mkRawCode structuredSource "" "A" "" "" "" "" "" "" "" "" "" "" true);
     Some (RawCode_lit "ab" true)]).
  { repeat constructor. }
  assert (H2 : ∀ a b,
     [Some (RawCode_lit structuredSource false); Some (RawCode_lit "ab" false)]
       = [Some a] →
     [Some (mkRawCode structuredSource "" "A" "" "" "" "" "" "" "" "" "" "" true);
      Some (RawCode_lit "ab" true)] = [Some b] →
     IsOneSource a = IsOneSource b).
  { intros a b H. discriminate H. }
  exact (conj H1 (conj H2
    (parseContractCode_reads_source_and_flag Unmarshal_SourceCode_zero _ _ H1 H2))).
Defined.

(** Two well-formed entries: two calls. *)
Lemma parseContractCode_decodes_each_once_witness :
  isOneSourceCase [RawCode_lit structuredSource false; RawCode_lit "{{}}" false]
    = false ∧
  (∀ e, e ∈ [RawCode_lit structuredSource false; RawCode_lit "{{}}" false] →
        ∃ d, inner Unmarshal_SourceCode_zero e = Some (Some d)) ∧
  Forall2 (λ e data, stripped (SourceCode e) = Some data)
    [RawCode_lit structuredSource false; RawCode_lit "{{}}" false]
    (calls (parseContractCode Unmarshal_SourceCode_zero
              (ptrs [RawCode_lit structuredSource false; RawCode_lit "{{}}" false]))).
Proof.
  assert (H1 : isOneSourceCase
    [RawCode_lit structuredSource false; RawCode_lit "{{}}" false] = false)
    by reflexivity.
  assert (H2 : ∀ e,
    e ∈ [RawCode_lit structuredSource false; RawCode_lit "{{}}" false] →
    ∃ d, inner Unmarshal_SourceCode_zero e = Some (Some d)).
  { intros e He. apply elem_of_cons in He as [-> | He];
      [eexists; vm_compute; reflexivity|].
    apply elem_of_cons in He as [-> | He]; [eexists; vm_compute; reflexivity|].
    now apply elem_of_nil in He. }
  exact (conj H1 (conj H2
    (parseContractCode_decodes_each_once Unmarshal_SourceCode_zero _ H1 H2))).
Defined.

(** A well-formed entry, a malformed one, then a nil pointer and an
    empty source code that are never reached. *)
Lemma parseContractCode_stops_at_first_failure_witness :
  ([RawCode_lit structuredSource false] = [] →
   [None; Some (RawCode_lit "" false)] = [] →
   IsOneSource (RawCode_lit "{not json}" false) = false) ∧
  Forall (λ x, ∃ d, inner Unmarshal_SourceCode_zero x = Some (Some d))
         [RawCode_lit structuredSource false] ∧
  inner Unmarshal_SourceCode_zero (RawCode_lit "{not json}" false) = Some None ∧
  ∃ first,
    head ([RawCode_lit structuredSource false] ++ [RawCode_lit "{not json}" false])
      = Some first ∧
    result (parseContractCode Unmarshal_SourceCode_zero
              (ptrs [RawCode_lit structuredSource false]
               ++ Some (RawCode_lit "{not json}" false)
                  :: [None; Some (RawCode_lit "" false)])) =
      Done ([mainSol (SourceCode first)], None) ∧
    Forall2 (λ x data, stripped (SourceCode x) = Some data)
      ([RawCode_lit structuredSource false] ++ [RawCode_lit "{not json}" false])
      (calls (parseContractCode Unmarshal_SourceCode_zero
                (ptrs [RawCode_lit structuredSource false]
                 ++ Some (RawCode_lit "{not json}" false)
                    :: [None; Some (RawCode_lit "" false)]))).
Proof.
  assert (H1 : [RawCode_lit structuredSource false] = [] →
               [None; Some (RawCode_lit "" false)] = [] →
               IsOneSource (RawCode_lit "{not json}" false) = false)
    by (intros _ _; reflexivity).
  assert (H2 : Forall (λ x, ∃ d, inner Unmarshal_SourceCode_zero x = Some (Some d))
                      [RawCode_lit structuredSource false]).
  { constructor; [eexists; vm_compute; reflexivity | constructor]. }
  assert (H3 : inner Unmarshal_SourceCode_zero (RawCode_lit "{not json}" false)
               = Some None) by (vm_compute; reflexivity).
  exact (conj H1 (conj H2 (conj H3
    (parseContractCode_stops_at_first_failure Unmarshal_SourceCode_zero
       _ _ _ H1 H2 H3)))).
Defined.

(** Two entries, one bundle. *)
Lemma parseContractCode_bundle_bound_witness :
  result (parseContractCode Unmarshal_SourceCode_zero
            (ptrs [RawCode_lit "ab" false; RawCode_lit "cd" false])) =
    Done ([mainSol "ab"], None) ∧
  (length [mainSol "ab"] ≤ length [RawCode_lit "ab" false; RawCode_lit "cd" false])%nat ∧
  ([mainSol "ab"] = [] ↔ [RawCode_lit "ab" false; RawCode_lit "cd" false] = []).
Proof.
  assert (H1 : result (parseContractCode Unmarshal_SourceCode_zero
                         (ptrs [RawCode_lit "ab" false; RawCode_lit "cd" false])) =
               Done ([mainSol "ab"], None)) by (vm_compute; reflexivity).
  exact (conj H1
    (parseContractCode_bundle_bound Unmarshal_SourceCode_zero _ _ _ H1)).
Defined.

(** A body of plain text, fetched and normalised. *)
Lemma fetch_then_normalize_flat_witness :
  answering "pragma solidity ^0.8.0;"
    (getContractURL "https://api.etherscan.io/" "0xabc" "KEY")
    = Body "pragma solidity ^0.8.0;" ∧
  Decode_Response_zero "pragma solidity ^0.8.0;" = None ∧
  parseContractCode Unmarshal_SourceCode_zero
    (fst (getRawContractCode (answering "pragma solidity ^0.8.0;")
            Decode_Response_zero "https://api.etherscan.io/" "0xabc" "KEY")) =
    ([], Done ([mainSol "pragma solidity ^0.8.0;"], None)).
Proof.
  assert (H1 : answering "pragma solidity ^0.8.0;"
                 (getContractURL "https://api.etherscan.io/" "0xabc" "KEY")
               = Body "pragma solidity ^0.8.0;") by reflexivity.
  assert (H2 : Decode_Response_zero "pragma solidity ^0.8.0;" = None)
    by (vm_compute; reflexivity).
  exact (conj H1 (conj H2
    (fetch_then_normalize_flat (answering "pragma solidity ^0.8.0;")
       Decode_Response_zero Unmarshal_SourceCode_zero _ _ _ _ H1 H2))).
Defined.

(** The explorer reports a failure: the error of [run] is the one of the
    fetch. *)
Lemma run_error_origin_witness :
  snd (run (sampleEnv sampleConfig (answering failureBody)) []) =
    Done (Some "bad status: 0, message: 0") ∧
  (snd (loadConfig (sampleEnv sampleConfig (answering failureBody)))
     = Some "bad status: 0, message: 0" ∨
   (∃ c, fst (loadConfig (sampleEnv sampleConfig (answering failureBody))) = Some c ∧
         snd (run_fetch (sampleEnv sampleConfig (answering failureBody)) c)
           = Some "bad status: 0, message: 0") ∨
   (∃ ev e,
      fst (run (sampleEnv sampleConfig (answering failureBody)) [])
        = [] ++ ev ++ e :: (EvClose <$> rev (created ev)) ∧
      failure e = Some "bad status: 0, message: 0" ∧
      Forall (λ e, failure e = None) ev)).
Proof.
  assert (H1 : snd (run (sampleEnv sampleConfig (answering failureBody)) []) =
               Done (Some "bad status: 0, message: 0")) by (vm_compute; reflexivity).
  exact (conj H1
    (run_error_origin (sampleEnv sampleConfig (answering failureBody)) [] _ H1)).
Defined.

Lemma world_loads : loadConfig world = (Some sampleConfigDecoded, None).
Proof. vm_compute. reflexivity. Qed.

Lemma world_fetches :
  run_fetch world sampleConfigDecoded =
    ([Some (RawCode_lit structuredSource false)], None).
Proof. vm_compute. reflexivity. Qed.

Lemma world_parses :
  result (parseContractCode (env_Unmarshal world)
            [Some (RawCode_lit structuredSource false)]) =
    Done ([structuredBundle], None).
Proof. vm_compute. reflexivity. Qed.

Lemma structuredBundle_no_nil (b : SourceCodeDoc) (path : string) :
  b ∈ [structuredBundle] → SourceCodeSources b !! path ≠ Some None.
Proof.
  intros Hb. apply list_elem_of_singleton in Hb as ->.
  cbn [structuredBundle SourceCodeSources]. intros H.
  apply lookup_singleton_Some in H as [_ [=]].
Qed.

(** An envelope with one structured entry of one source. *)
Lemma run_writes_every_source_witness :
  loadConfig world = (Some sampleConfigDecoded, None) ∧
  run_fetch world sampleConfigDecoded =
    ([Some (RawCode_lit structuredSource false)], None) ∧
  result (parseContractCode (env_Unmarshal world)
            [Some (RawCode_lit structuredSource false)]) =
    Done ([structuredBundle], None) ∧
  (∀ h path, env_MkdirAll world h path = None) ∧
  (∀ h name, env_Create world h name = None) ∧
  (∀ i m, env_range world i m ≡ₚ map_to_list m) ∧
  (∀ b path, b ∈ [structuredBundle] → SourceCodeSources b !! path ≠ Some None) ∧
  run world [] =
  ([] ++ bundles_events world sampleConfigDecoded 0 [structuredBundle]
      ++ (EvClose <$> rev (created
            (bundles_events world sampleConfigDecoded 0 [structuredBundle]))),
   Done None).
Proof.
  exact (conj world_loads (conj world_fetches (conj world_parses
    (conj (λ _ _, eq_refl) (conj (λ _ _, eq_refl)
    (conj (λ _ _, reflexivity _) (conj structuredBundle_no_nil
      (run_writes_every_source world _ _ _ _ []
         world_loads world_fetches world_parses
         (λ _ _, eq_refl) (λ _ _, eq_refl) (λ _ _, reflexivity _)
         structuredBundle_no_nil)))))))).
Defined.

(** The content of "A.sol" reaches its file. *)
Lemma run_writes_each_content_witness :
  loadConfig world = (Some sampleConfigDecoded, None) ∧
  run_fetch world sampleConfigDecoded =
    ([Some (RawCode_lit structuredSource false)], None) ∧
  result (parseContractCode (env_Unmarshal world)
            [Some (RawCode_lit structuredSource false)]) =
    Done ([structuredBundle], None) ∧
  (∀ h path, env_MkdirAll world h path = None) ∧
  (∀ h name, env_Create world h name = None) ∧
  (∀ i m, env_range world i m ≡ₚ map_to_list m) ∧
  (∀ b path, b ∈ [structuredBundle] → SourceCodeSources b !! path ≠ Some None) ∧
  structuredBundle ∈ [structuredBundle] ∧
  SourceCodeSources structuredBundle !! "A.sol" = Some (Some (mkContract "contract A {}")) ∧
  EvWrite (targetPath world (ContractDir sampleConfigDecoded)
             (Target sampleConfigDecoded) "A.sol")
          (Content (mkContract "contract A {}"))
    ∈ fst (run world []).
Proof.
  assert (H8 : structuredBundle ∈ [structuredBundle]) by apply list_elem_of_here.
  assert (H9 : SourceCodeSources structuredBundle !! "A.sol"
               = Some (Some (mkContract "contract A {}")))
    by (vm_compute; reflexivity).
  exact (conj world_loads (conj world_fetches (conj world_parses
    (conj (λ _ _, eq_refl) (conj (λ _ _, eq_refl)
    (conj (λ _ _, reflexivity _) (conj structuredBundle_no_nil (conj H8 (conj H9
      (run_writes_each_content world _ _ _ _ [] _ _ _
         world_loads world_fetches world_parses
         (λ _ _, eq_refl) (λ _ _, eq_refl) (λ _ _, reflexivity _)
         structuredBundle_no_nil H8 H9)))))))))).
Defined.

(** A flat source, from the request to the file. *)
Lemma main_flat_body_witness :
  loadConfig (sampleEnv sampleConfig (answering "pragma solidity ^0.8.0;"))
    = (Some sampleConfigDecoded, None) ∧
  (∀ url, env_Get (sampleEnv sampleConfig (answering "pragma solidity ^0.8.0;")) url
          = Body "pragma solidity ^0.8.0;") ∧
  env_Decode_Response (sampleEnv sampleConfig (answering "pragma solidity ^0.8.0;"))
    "pragma solidity ^0.8.0;" = None ∧
  (∀ h path,
     env_MkdirAll (sampleEnv sampleConfig (answering "pragma solidity ^0.8.0;")) h path
     = None) ∧
  (∀ h name,
     env_Create (sampleEnv sampleConfig (answering "pragma solidity ^0.8.0;")) h name
     = None) ∧
  (∀ i m,
     env_range (sampleEnv sampleConfig (answering "pragma solidity ^0.8.0;")) i m
     ≡ₚ map_to_list m) ∧
  main (sampleEnv sampleConfig (answering "pragma solidity ^0.8.0;")) [] =
  ([] ++ [EvMkdirAll (targetDir (sampleEnv sampleConfig (answering "pragma solidity ^0.8.0;"))
                        (ContractDir sampleConfigDecoded) (Target sampleConfigDecoded)
                        "main.sol") None;
          EvCreate (targetPath (sampleEnv sampleConfig (answering "pragma solidity ^0.8.0;"))
                      (ContractDir sampleConfigDecoded) (Target sampleConfigDecoded)
                      "main.sol") None;
          EvWrite (targetPath (sampleEnv sampleConfig (answering "pragma solidity ^0.8.0;"))
                     (ContractDir sampleConfigDecoded) (Target sampleConfigDecoded)
                     "main.sol") "pragma solidity ^0.8.0;";
          EvClose (targetPath (sampleEnv sampleConfig (answering "pragma solidity ^0.8.0;"))
                     (ContractDir sampleConfigDecoded) (Target sampleConfigDecoded)
                     "main.sol")],
   Exited 0 "").
Proof.
  assert (H1 : loadConfig (sampleEnv sampleConfig (answering "pragma solidity ^0.8.0;"))
               = (Some sampleConfigDecoded, None)) by (vm_compute; reflexivity).
  assert (H3 : env_Decode_Response
                 (sampleEnv sampleConfig (answering "pragma solidity ^0.8.0;"))
                 "pragma solidity ^0.8.0;" = None) by (vm_compute; reflexivity).
  exact (conj H1 (conj (λ _, eq_refl) (conj H3
    (conj (λ _ _, eq_refl) (conj (λ _ _, eq_refl) (conj (λ _ _, reflexivity _)
      (main_flat_body (sampleEnv sampleConfig (answering "pragma solidity ^0.8.0;"))
         _ _ [] H1 (λ _, eq_refl) H3
         (λ _ _, eq_refl) (λ _ _, eq_refl) (λ _ _, reflexivity _)))))))).
Defined.

(** The explorer reports a failure. *)
Lemma main_bad_status_witness :
  loadConfig (sampleEnv sampleConfig (answering failureBody))
    = (Some sampleConfigDecoded, None) ∧
  (∀ url, env_Get (sampleEnv sampleConfig (answering failureBody)) url
          = Body failureBody) ∧
  env_Decode_Response (sampleEnv sampleConfig (answering failureBody)) failureBody
    = Some (mkResponse "0" "NOTOK" []) ∧
  Status (mkResponse "0" "NOTOK" []) ≠ "1" ∧
  main (sampleEnv sampleConfig (answering failureBody)) [] =
  ([], Exited 1 (("bad status: " +:+ Status (mkResponse "0" "NOTOK" [])
                  +:+ ", message: " +:+ Status (mkResponse "0" "NOTOK" []))
                 +:+ String "010" "")).
Proof.
  assert (H1 : loadConfig (sampleEnv sampleConfig (answering failureBody))
               = (Some sampleConfigDecoded, None)) by (vm_compute; reflexivity).
  assert (H3 : env_Decode_Response (sampleEnv sampleConfig (answering failureBody))
                 failureBody = Some (mkResponse "0" "NOTOK" []))
    by (vm_compute; reflexivity).
  assert (H4 : Status (mkResponse "0" "NOTOK" []) ≠ "1") by discriminate.
  exact (conj H1 (conj (λ _, eq_refl) (conj H3 (conj H4
    (main_bad_status (sampleEnv sampleConfig (answering failureBody))
       _ _ _ [] H1 (λ _, eq_refl) H3 H4))))).
Defined.

(** The target "nobody" is not configured, and the network is down. *)
Lemma main_unknown_target_witness :
  loadConfig (sampleEnv configWithoutTarget offline)
    = (Some (mkConfig "nobody" "contracts" ∅), None) ∧
  Contracts (mkConfig "nobody" "contracts" ∅)
    !! Target (mkConfig "nobody" "contracts" ∅) = None ∧
  env_Get (sampleEnv configWithoutTarget offline)
    "/api?module=contract&action=getsourcecode&address=&apikey="
    = GetFailed "dial tcp: no route to host" ∧
  main (sampleEnv configWithoutTarget offline) [] =
  ([], Exited 1 ("dial tcp: no route to host" +:+ String "010" "")).
Proof.
  assert (H1 : loadConfig (sampleEnv configWithoutTarget offline)
               = (Some (mkConfig "nobody" "contracts" ∅), None))
    by (vm_compute; reflexivity).
  assert (H2 : Contracts (mkConfig "nobody" "contracts" ∅)
                 !! Target (mkConfig "nobody" "contracts" ∅) = None)
    by (vm_compute; reflexivity).
  exact (conj H1 (conj H2 (conj eq_refl
    (main_unknown_target (sampleEnv configWithoutTarget offline)
       _ _ [] H1 H2 eq_refl)))).
Defined.

(** The target is on chain 5. *)
Lemma main_unknown_chain_witness :
  loadConfig (sampleEnv configOtherChain offline)
    = (Some (mkConfig "punks" "contracts" {[ "punks" := mkConfigContract 5 "0xabc" ]}),
       None) ∧
  Contracts (mkConfig "punks" "contracts" {[ "punks" := mkConfigContract 5 "0xabc" ]})
    !! Target (mkConfig "punks" "contracts" {[ "punks" := mkConfigContract 5 "0xabc" ]})
    = Some (mkConfigContract 5 "0xabc") ∧
  Chain (mkConfigContract 5 "0xabc") ≠ ethereum ∧
  Chain (mkConfigContract 5 "0xabc") ≠ polygon ∧
  env_Get (sampleEnv configOtherChain offline)
    ("/api?module=contract&action=getsourcecode&address="
     +:+ Address (mkConfigContract 5 "0xabc") +:+ "&apikey=")
    = GetFailed "dial tcp: no route to host" ∧
  main (sampleEnv configOtherChain offline) [] =
  ([], Exited 1 ("dial tcp: no route to host" +:+ String "010" "")).
Proof.
  assert (H1 : loadConfig (sampleEnv configOtherChain offline)
    = (Some (mkConfig "punks" "contracts" {[ "punks" := mkConfigContract 5 "0xabc" ]}),
       None)) by (vm_compute; reflexivity).
  assert (H2 : Contracts
      (mkConfig "punks" "contracts" {[ "punks" := mkConfigContract 5 "0xabc" ]})
    !! Target (mkConfig "punks" "contracts" {[ "punks" := mkConfigContract 5 "0xabc" ]})
    = Some (mkConfigContract 5 "0xabc")) by (vm_compute; reflexivity).
  assert (H3 : Chain (mkConfigContract 5 "0xabc") ≠ ethereum) by discriminate.
  assert (H4 : Chain (mkConfigContract 5 "0xabc") ≠ polygon) by discriminate.
  exact (conj H1 (conj H2 (conj H3 (conj H4 (conj eq_refl
    (main_unknown_chain (sampleEnv configOtherChain offline)
       _ _ _ [] H1 H2 H3 H4 eq_refl)))))).
Defined.

(** The target is on ethereum. *)
Lemma main_known_chain_witness :
  loadConfig (sampleEnv sampleConfig offline) = (Some sampleConfigDecoded, None) ∧
  Contracts sampleConfigDecoded !! Target sampleConfigDecoded
    = Some (mkConfigContract 1 "0xabc") ∧
  ((Chain (mkConfigContract 1 "0xabc") = ethereum ∧
    "https://api.etherscan.io/" = "https://api.etherscan.io/" ∧
    "ETHERSCAN_APIKEY" = "ETHERSCAN_APIKEY") ∨
   (Chain (mkConfigContract 1 "0xabc") = polygon ∧
    "https://api.etherscan.io/" = "https://api.polygonscan.com/" ∧
    "ETHERSCAN_APIKEY" = "POLYGONSCAN_APIKEY")) ∧
  env_Get (sampleEnv sampleConfig offline)
    ("https://api.etherscan.io/"
     +:+ "/api?module=contract&action=getsourcecode&address="
     +:+ Address (mkConfigContract 1 "0xabc") +:+ "&apikey="
     +:+ env_Getenv (sampleEnv sampleConfig offline) "ETHERSCAN_APIKEY")
    = GetFailed "dial tcp: no route to host" ∧
  main (sampleEnv sampleConfig offline) [] =
  ([], Exited 1 ("dial tcp: no route to host" +:+ String "010" "")).
Proof.
  assert (H1 : loadConfig (sampleEnv sampleConfig offline)
               = (Some sampleConfigDecoded, None)) by (vm_compute; reflexivity).
  assert (H2 : Contracts sampleConfigDecoded !! Target sampleConfigDecoded
               = Some (mkConfigContract 1 "0xabc")) by (vm_compute; reflexivity).
  assert (H3 : (Chain (mkConfigContract 1 "0xabc") = ethereum ∧
                "https://api.etherscan.io/" = "https://api.etherscan.io/" ∧
                "ETHERSCAN_APIKEY" = "ETHERSCAN_APIKEY") ∨
               (Chain (mkConfigContract 1 "0xabc") = polygon ∧
                "https://api.etherscan.io/" = "https://api.polygonscan.com/" ∧
                "ETHERSCAN_APIKEY" = "POLYGONSCAN_APIKEY"))
    by (left; repeat split).
  exact (conj H1 (conj H2 (conj H3 (conj eq_refl
    (main_known_chain (sampleEnv sampleConfig offline)
       _ _ _ _ _ [] H1 H2 H3 eq_refl))))).
Defined.

(** An entry whose document has a [null] for "A.sol". *)
Lemma main_nil_source_witness :
  loadConfig (sampleEnv sampleConfig (answering nullSourceBody))
    = (Some sampleConfigDecoded, None) ∧
  run_fetch (sampleEnv sampleConfig (answering nullSourceBody)) sampleConfigDecoded
    = ([Some (RawCode_lit (dq "{{'sources':{'A.sol':null}}}") false)], None) ∧
  result (parseContractCode
            (env_Unmarshal (sampleEnv sampleConfig (answering nullSourceBody)))
            [Some (RawCode_lit (dq "{{'sources':{'A.sol':null}}}") false)])
    = Done (nullSourceBundle :: [], None) ∧
  env_range (sampleEnv sampleConfig (answering nullSourceBody)) 0
    (SourceCodeSources nullSourceBundle) = ("A.sol", None) :: [] ∧
  env_MkdirAll (sampleEnv sampleConfig (answering nullSourceBody)) []
    (targetDir (sampleEnv sampleConfig (answering nullSourceBody))
       (ContractDir sampleConfigDecoded) (Target sampleConfigDecoded) "A.sol") = None ∧
  env_Create (sampleEnv sampleConfig (answering nullSourceBody))
    ([] ++ [EvMkdirAll
              (targetDir (sampleEnv sampleConfig (answering nullSourceBody))
                 (ContractDir sampleConfigDecoded) (Target sampleConfigDecoded) "A.sol")
              None])
    (targetPath (sampleEnv sampleConfig (answering nullSourceBody))
       (ContractDir sampleConfigDecoded) (Target sampleConfigDecoded) "A.sol") = None ∧
  main (sampleEnv sampleConfig (answering nullSourceBody)) [] =
  ([] ++ [EvMkdirAll
            (targetDir (sampleEnv sampleConfig (answering nullSourceBody))
               (ContractDir sampleConfigDecoded) (Target sampleConfigDecoded) "A.sol")
            None;
          EvCreate
            (targetPath (sampleEnv sampleConfig (answering nullSourceBody))
               (ContractDir sampleConfigDecoded) (Target sampleConfigDecoded) "A.sol")
            None;
          EvClose
            (targetPath (sampleEnv sampleConfig (answering nullSourceBody))
               (ContractDir sampleConfigDecoded) (Target sampleConfigDecoded) "A.sol")],
   Crashed NilPointerDereference).
Proof.
  assert (H1 : loadConfig (sampleEnv sampleConfig (answering nullSourceBody))
               = (Some sampleConfigDecoded, None)) by (vm_compute; reflexivity).
  assert (H2 : run_fetch (sampleEnv sampleConfig (answering nullSourceBody))
                 sampleConfigDecoded
    = ([Some (RawCode_lit (dq "{{'sources':{'A.sol':null}}}") false)], None))
    by (vm_compute; reflexivity).
  assert (H3 : result (parseContractCode
            (env_Unmarshal (sampleEnv sampleConfig (answering nullSourceBody)))
            [Some (RawCode_lit (dq "{{'sources':{'A.sol':null}}}") false)])
    = Done (nullSourceBundle :: [], None)) by (vm_compute; reflexivity).
  assert (H4 : env_range (sampleEnv sampleConfig (answering nullSourceBody)) 0
    (SourceCodeSources nullSourceBundle) = ("A.sol", None) :: [])
    by (vm_compute; reflexivity).
  exact (conj H1 (conj H2 (conj H3 (conj H4 (conj eq_refl (conj eq_refl
    (main_nil_source (sampleEnv sampleConfig (answering nullSourceBody))
       _ _ _ _ _ _ _ [] H1 H2 H3 H4 eq_refl eq_refl))))))).
Defined.

End MoreRuns.
